(** * TextToWavVIPFileCLI: BASIC text to Kansas City Standard samples

    A shallow embedding of [Software/TextToWavVIPFileCLI_2.py]: the
    tokenizer and block assembler [Create_BinData], the byte modulator
    [Encode_Data] and the sample stream written by [Write_Wav].

    Text is a [string] of single-byte characters.  The embedding follows
    Python on 7-bit ASCII text; [str.upper], [\s] and [\d] are not modelled
    beyond it, and the theorems over arbitrary text assume [isascii].
    A Python exception is the result [None]. *)

From Stdlib Require Import List String Ascii Bool Arith NArith ZArith Lia.
From Stdlib Require HexString.
Import ListNotations.

#[local] Open Scope string_scope.

(** ** The Python built-ins the program calls *)

Module Py.

(** [ord(c)]. *)
Definition ord (c : ascii) : N := N_of_ascii c.

Definition between (lo hi : N) (c : ascii) : bool :=
  ((lo <=? ord c) && (ord c <=? hi))%N.

(** Every character of [s] is in the class [p]. *)
Fixpoint every (p : ascii -> bool) (s : string) : bool :=
  match s with
  | "" => true
  | String c s' => p c && every p s'
  end.

(** [str.isascii()]. *)
Definition isascii (s : string) : bool := every (fun c => (ord c <? 128)%N) s.

(** [c.isspace()] on ASCII text, which is also the class [\s] and what
    [lstrip] removes: tab, line feed, vertical tab, form feed, carriage
    return, the four separators 0x1C-0x1F and the blank.  Beyond ASCII
    Python has more white space (U+0085, U+00A0), which is not modelled. *)
Definition isspace (c : ascii) : bool :=
  between 9 13 c || between 28 31 c || (ord c =? 32)%N.

(** The class [\d] on ASCII text. *)
Definition isdigit (c : ascii) : bool := between 48 57 c.

(** [str.upper()] on ASCII text: the letters a-z go to A-Z and every other
    character stays.  Beyond ASCII Python changes more characters, which is
    not modelled. *)
Definition upper_char (c : ascii) : ascii :=
  if between 97 122 c then ascii_of_N (ord c - 32) else c.

Fixpoint upper (s : string) : string :=
  match s with
  | "" => ""
  | String c s' => String (upper_char c) (upper s')
  end.

(** [str.lstrip()]. *)
Fixpoint lstrip (s : string) : string :=
  match s with
  | "" => ""
  | String c s' => if isspace c then lstrip s' else s
  end.

(** [s.split(sep)] for a one-character separator. *)
Fixpoint split (sep : ascii) (s : string) : list string :=
  match s with
  | "" => [""]
  | String c s' =>
      if Ascii.eqb c sep then "" :: split sep s'
      else match split sep s' with
           | w :: ws => String c w :: ws
           | [] => [String c ""]
           end
  end.

(** [sep.join(l)]. *)
Definition join (sep : string) (l : list string) : string := String.concat sep l.

(** [s.replace(c, "")] for a one-character [c]. *)
Fixpoint remove (c : ascii) (s : string) : string :=
  match s with
  | "" => ""
  | String d s' => if Ascii.eqb d c then remove c s' else String d (remove c s')
  end.

(** [s[:n]] and [s[n:]]. *)
Fixpoint take (n : nat) (s : string) : string :=
  match n, s with
  | S k, String c s' => String c (take k s')
  | _, _ => ""
  end.

Fixpoint drop (n : nat) (s : string) : string :=
  match n, s with
  | S k, String _ s' => drop k s'
  | _, _ => s
  end.

(** [s[::-1]]. *)
Fixpoint reverse (s : string) : string :=
  match s with
  | "" => ""
  | String c s' => reverse s' ++ String c ""
  end.

Fixpoint zeros (n : nat) : string :=
  match n with
  | O => ""
  | S k => String "0" (zeros k)
  end.

(** [s.zfill(width)]: zeros on the left, after a leading sign. *)
Definition zfill (width : nat) (s : string) : string :=
  let fill := zeros (width - String.length s) in
  match s with
  | String c s' =>
      if Ascii.eqb c "+" || Ascii.eqb c "-" then String c (fill ++ s')
      else fill ++ s
  | "" => fill
  end.

(** The digit characters of [hex] and [bin]. *)
Definition digit_char (d : N) : ascii :=
  match String.get (N.to_nat d) "0123456789abcdef" with
  | Some c => c
  | None => "?"%char
  end.

(** The digits of [n] in [base], most significant first, in front of [acc];
    a number has no more digits than bits. *)
Fixpoint to_digits (fuel : nat) (base n : N) (acc : string) : string :=
  match fuel with
  | O => acc
  | S f =>
      let acc' := String (digit_char (n mod base)) acc in
      if (n / base =? 0)%N then acc' else to_digits f base (n / base) acc'
  end.

Definition digits (base n : N) : string :=
  to_digits (S (N.to_nat (N.log2 n))) base n "".

(** [hex(n)] and [bin(n)] of a non-negative integer. *)
Definition hex (n : N) : string := "0x" ++ digits 16 n.
Definition bin (n : N) : string := "0b" ++ digits 2 n.

(** [format(n, '08b')] of a non-negative integer: the binary digits on at
    least eight places. *)
Definition format_08b (n : N) : string := zfill 8 (digits 2 n).

(** [int(s, base)] on a string of digits: the program calls it on strings of
    hexadecimal digits, on runs of decimal digits and on single characters.
    A string with any other character, or the empty string, is a ValueError
    here; the signs, prefixes, underscores and white space that [int] also
    takes are not modelled. *)
Fixpoint int_digits (base : N) (s : string) (acc : N) : option N :=
  match s with
  | "" => Some acc
  | String c s' =>
      match HexString.ascii_to_digit c with
      | Some d => if (d <? base)%N then int_digits base s' (base * acc + d) else None
      | None => None
      end
  end.

Definition int (s : string) (base : N) : option N :=
  match s with
  | "" => None
  | _ => int_digits base s 0
  end.

(** The white space of bytes: tab, line feed, vertical tab, form feed,
    carriage return and the blank. *)
Definition isspace_bytes (c : ascii) : bool :=
  between 9 13 c || (ord c =? 32)%N.

(** [bytes.fromhex(s)]: pairs of hexadecimal digits, white space of bytes
    allowed between the pairs. *)
Fixpoint fromhex (s : string) : option (list N) :=
  match s with
  | "" => Some []
  | String c s' =>
      if isspace_bytes c then fromhex s'
      else match s' with
           | String d s'' =>
               match HexString.ascii_to_digit c, HexString.ascii_to_digit d, fromhex s'' with
               | Some h, Some l, Some bs => Some ((16 * h + l)%N :: bs)
               | _, _, _ => None
               end
           | "" => None
           end
  end.

(** The longest prefix of characters in the class [p], and the rest. *)
Fixpoint span (p : ascii -> bool) (s : string) : string * string :=
  match s with
  | "" => ("", "")
  | String c s' =>
      if p c then let '(a, b) := span p s' in (String c a, b)
      else ("", s)
  end.

(** [re.match] with the pattern of [Extract_Number_String]: a run of
    digits at the start of the text, then what follows up to a line feed.
    The result is the two groups. *)
Definition match_number (text : string) : option (string * string) :=
  match span isdigit text with
  | ("", _) => None
  | (number_str, rest) =>
      Some (number_str, fst (span (fun c => negb (Ascii.eqb c "010")) rest))
  end.

(** [re.split(r'(\s+)', s)]: the pieces between the runs of white space,
    alternating with the runs themselves.  [cur] is the piece or the run
    being read, [in_run] tells which. *)
Fixpoint split_from (in_run : bool) (cur s : string) : list string :=
  match s with
  | "" => if in_run then [cur; ""] else [cur]
  | String c s' =>
      if Bool.eqb (isspace c) in_run then split_from in_run (cur ++ String c "") s'
      else cur :: split_from (isspace c) (String c "") s'
  end.

Definition split_spaces (s : string) : list string := split_from false "" s.

End Py.

(** ** The program *)

(** Exceptions: [x <- e ;; k] stops at the first [None]. *)
Notation "x <- e ;; k" :=
  (match e with Some x => k | None => None end)
  (at level 61, e at next level, right associativity).

(** *** The global parameters, as the module sets them when it is loaded *)

Module Default.
Definition FRAMERATE : Z := 22050.
Definition ONES_FREQ : Z := 800.
Definition ZERO_FREQ : Z := 2000.
Definition AMPLITUDE : Z := 225.
Definition CENTER : Z := 128.
Definition LEADER : Z := 8.
Definition PARITY : Z := 0.
Definition STARTBIT : Z := 1.
Definition BLANKS : Z := 25.
End Default.

(** *** The mnemonic table *)

Definition mnemonic_index : list (string * string) :=
  [ ("?", "88"); ("ABS", "9C"); ("CLS", "9C"); ("COLOR", "A4"); ("END", "94");
    ("GOKEY", "84"); ("GOSUB", "82"); ("GOTO", "80"); ("HIT", "94");
    ("IF", "86"); ("INPUT", "96"); ("KEY", "8E"); ("LET", "90");
    ("LIST", "9E"); ("LOAD", "A0"); ("MEM", "80"); ("NEW", "92");
    ("PRINT", "88"); ("REM", "8C"); ("RETURN", "8E"); ("RND", "98");
    ("RUN", "8A"); ("SAVE", "98"); ("SHOW", "9A"); ("TI", "8A");
    ("TVOFF", "A6"); ("TVON", "A2") ].

(** [mnemonic_index[word]], [None] when [word not in mnemonic_index]. *)
Fixpoint lookup (word : string) (table : list (string * string)) : option string :=
  match table with
  | [] => None
  | (k, v) :: table' => if String.eqb word k then Some v else lookup word table'
  end.

(** *** Square waves *)

(** [bytearray([v]) * n]. *)
Definition samples (v : Z) (n : Z) : list Z := repeat v (Z.to_nat n).

(** [make_square_wave]: [int(framerate/freq/2)] truncates the quotient.  The
    amplitude and the centre are read when the module is loaded. *)
Definition make_square_wave (freq framerate : Z) : list Z :=
  let n := Z.quot framerate (freq * 2) in
  (samples (Default.CENTER - Default.AMPLITUDE / 2) n
   ++ samples (Default.CENTER + Default.AMPLITUDE / 2) n)%list.

(** The two pulses are made once, when the module is loaded, from the
    parameters above; the prompts of the main program change the parameters
    later and leave the pulses as they are. *)
Definition one_pulse : list Z := make_square_wave Default.ONES_FREQ Default.FRAMERATE.
Definition zero_pulse : list Z := make_square_wave Default.ZERO_FREQ Default.FRAMERATE.

Definition is_even (number : N) : bool := (number mod 2 =? 0)%N.

(** *** The tokenizer *)

Definition Extract_Number_String (text : string) : option N * string :=
  let text := Py.upper text in
  match Py.match_number text with
  | Some (number_str, remaining_str) =>
      (Py.int number_str 10, Py.lstrip remaining_str)
  | None => (None, text)
  end.

Definition integer_to_hex (var : N) (pad : nat) : string :=
  Py.zfill pad (Py.upper (Py.drop 2 (Py.hex var))).

Definition string_to_binary (input_string : string) (pad : nat) : string :=
  let binary_representation :=
    map (fun char => Py.format_08b (Py.ord char)) (list_ascii_of_string input_string) in
  Py.zfill pad (Py.join " " binary_representation).

Definition string_to_hex (var : ascii) : string :=
  integer_to_hex (Py.ord var) 2.

(** [get_basic_size(hex_string, 1, offset, pad)]; both calls ask for the
    size as a hexadecimal string. *)
Definition get_basic_size (hex_string : string) (offset : nat) (pad : nat) : option string :=
  let hex_string := Py.remove " " hex_string in
  byte_object <- Py.fromhex hex_string ;;
  let basic_size := (List.length byte_object + offset)%nat in
  Some (integer_to_hex (N.of_nat basic_size) pad).

(** [bin(integer_value)[2:].zfill(pad)]. *)
Definition binary_string (integer_value : N) (pad : nat) : string :=
  Py.zfill pad (Py.drop 2 (Py.bin integer_value)).

Fixpoint hex_to_binary (hex_array : list string) (pad : nat) : option (list string) :=
  match hex_array with
  | [] => Some []
  | hex_digit :: hex_array' =>
      integer_value <- Py.int hex_digit 16 ;;
      binary_array <- hex_to_binary hex_array' pad ;;
      Some (binary_string integer_value pad :: binary_array)
  end.

(** The state of the loop over the words of one line: the codes emitted so
    far, the flag set by a mnemonic in first place, and the line length as
    last computed. *)
Record line_state := {
  code_segment_hex : list string;
  nospc : bool;
  basic_line_hex : option string
}.

(** The state when a line starts.  [basic_line_hex] still holds what the
    line before left in it; every line sets it before reading it. *)
Definition start_state : line_state :=
  {| code_segment_hex := []; nospc := false; basic_line_hex := None |}.

(** The loop over the letters of a word that is not a mnemonic. *)
Fixpoint encode_letters (index : nat) (word : string) (hex : list string) (nospc : bool)
  : list string * bool :=
  match word with
  | "" => (hex, nospc)
  | String letter word' =>
      if (index =? 1)%nat && (Py.ord letter =? 32)%N && nospc
      then encode_letters index word' hex false
      else encode_letters index word' (hex ++ [string_to_hex letter])%list nospc
  end.

(** The loop over the words of a line, [index] counting them. *)
Fixpoint encode_words (index : nat) (code_segment : list string) (st : line_state)
  : option line_state :=
  match code_segment with
  | [] => Some st
  | word :: code_segment' =>
      match lookup word mnemonic_index with
      | Some code =>
          encode_words (S index) code_segment'
            {| code_segment_hex := (code_segment_hex st ++ [code])%list;
               nospc := if (index =? 0)%nat then true else nospc st;
               basic_line_hex := basic_line_hex st |}
      | None =>
          let '(hex, nospc') := encode_letters index word (code_segment_hex st) (nospc st) in
          let hex_string := Py.join " " hex in
          size <- get_basic_size hex_string 1 2 ;;
          encode_words (S index) code_segment'
            {| code_segment_hex := hex; nospc := nospc'; basic_line_hex := Some size |}
      end
  end.

(** The body of the loop over the lines, for a line that has a label: the
    bytes the line adds to [code_array].  The last word is the carriage
    return, which is no mnemonic, so the length is set before it is read. *)
Definition encode_line (label : N) (code : string) : option (list string) :=
  let hex_string := integer_to_hex label 4 in
  let label_hex1 := Py.take 2 hex_string in
  let label_hex2 := Py.drop 2 hex_string in
  let code_segment := (Py.split_spaces code ++ [String "013" ""])%list in
  st <- encode_words 0 code_segment start_state ;;
  basic_line_hex <- basic_line_hex st ;;
  Some ([label_hex1; label_hex2; basic_line_hex] ++ code_segment_hex st)%list.

(** The loop over the lines. *)
Fixpoint encode_lines (text_segment : list string) (code_array : list string)
  : option (list string) :=
  match text_segment with
  | [] => Some code_array
  | line :: text_segment' =>
      match Extract_Number_String line with
      | (None, _) => encode_lines text_segment' code_array
      | (Some label, code) =>
          temp_array <- encode_line label code ;;
          encode_lines text_segment' (code_array ++ temp_array)%list
      end
  end.

(** [total_sum], the sum of the bytes of the block. *)
Fixpoint sum_hex (hex_array : list string) (total_sum : N) : option N :=
  match hex_array with
  | [] => Some total_sum
  | hex_num_str :: hex_array' =>
      v <- Py.int hex_num_str 16 ;;
      sum_hex hex_array' (total_sum + v)%N
  end.

(** [Create_BinData] up to the block in hexadecimal, [final_hex_array]. *)
Definition Create_HexData (text_content : string) : option (list string) :=
  let text_segment := Py.split "010" text_content in
  code_array <- encode_lines text_segment [] ;;
  let hex_string := Py.join " " code_array in
  basic_size_hex <- get_basic_size hex_string 10 4 ;;
  let basic_size_hex1 := Py.take 2 basic_size_hex in
  let basic_size_hex2 := Py.drop 2 basic_size_hex in
  let final_hex_array :=
    ([basic_size_hex1; basic_size_hex2] ++ repeat (integer_to_hex 0 2) 6 ++ code_array)%list in
  total_sum <- sum_hex final_hex_array 0 ;;
  let total_hex := integer_to_hex total_sum 4 in
  let total_hex1 := Py.take 2 total_hex in
  let total_hex2 := Py.drop 2 total_hex in
  Some (total_hex1 :: total_hex2 :: final_hex_array).

(** [Create_BinData], given the text read from the source file. *)
Definition Create_BinData (text_content : string) : option (list string) :=
  final_hex_array <- Create_HexData text_content ;;
  hex_to_binary final_hex_array 8.

(** *** The modulator and the sample stream *)

Section Modulator.

(** The samples and the two pulses; the program's are [one_pulse] and
    [zero_pulse] above. *)
Context {sample : Type}.
Variables one_pulse zero_pulse : list sample.

(** The parameters as the prompts have set them when the file is written. *)
Variables FRAMERATE LEADER STARTBIT BLANKS : Z.

(** The loop over the data bits: the samples so far and the count of ones. *)
Fixpoint encode_bits (bytes : string) (encoded : list sample) (p : N)
  : option (list sample * N) :=
  match bytes with
  | "" => Some (encoded, p)
  | String bit bytes' =>
      v <- Py.int (String bit "") 10 ;;
      if (v =? 1)%N then encode_bits bytes' (encoded ++ one_pulse)%list (p + 1)%N
      else encode_bits bytes' (encoded ++ zero_pulse)%list p
  end.

Definition Encode_Data (bytes : string) : option (list sample) :=
  let bytes := Py.reverse bytes in
  let encoded := if (STARTBIT =? 0)%Z then zero_pulse else one_pulse in
  r <- encode_bits bytes encoded 0 ;;
  let '(encoded, p) := r in
  if negb (is_even p) then Some (encoded ++ one_pulse)%list
  else Some (encoded ++ zero_pulse)%list.

(** [pulse * n]; a count below zero gives nothing. *)
Definition times (pulse : list sample) (n : Z) : list sample :=
  List.concat (repeat pulse (Z.to_nat n)).

(** The leader: [int(FRAMERATE/len(zero_pulse))*LEADER] zero pulses. *)
Definition leader : list sample :=
  times zero_pulse (Z.quot FRAMERATE (Z.of_nat (List.length zero_pulse)) * LEADER).

(** The frames of all the bytes, in order. *)
Fixpoint encode_all (Binary_Data : list string) : option (list sample) :=
  match Binary_Data with
  | [] => Some []
  | byte :: Binary_Data' =>
      frame <- Encode_Data byte ;;
      frames <- encode_all Binary_Data' ;;
      Some (frame ++ frames)%list
  end.

(** The trailer: [BLANKS] one pulses. *)
Definition trailer : list sample := times one_pulse BLANKS.

(** [Write_Wav]: the samples written to the file.  The length of an empty
    zero pulse divides by zero. *)
Definition Write_Wav (Binary_Data : list string) : option (list sample) :=
  if (List.length zero_pulse =? 0)%nat then None
  else
    frames <- encode_all Binary_Data ;;
    Some (leader ++ frames ++ trailer)%list.

End Modulator.

(** ** The vocabulary of the statements *)

(** *** Pulses *)

Section Pulses.

Context {sample : Type}.
Variables one_pulse zero_pulse : list sample.

(** The samples of a pulse, by its kind: [true] is the one pulse. *)
Definition wave (kind : bool) : list sample :=
  if kind then one_pulse else zero_pulse.

Definition waves (kinds : list bool) : list sample := flat_map wave kinds.

End Pulses.

(** The data bits of a byte in the order they are sent, and the number of
    ones among them. *)
Definition data_bits (v : N) : list bool := map (N.testbit v) [0; 1; 2; 3; 4; 5; 6; 7]%N.

Definition ones (kinds : list bool) : nat := count_occ bool_dec kinds true.

(** The frame of a byte, pulse by pulse. *)
Definition frame (STARTBIT : Z) (v : N) : list bool :=
  (STARTBIT =? 1)%Z :: data_bits v ++ [Nat.odd (ones (data_bits v))].

(** The kind of the pulse sent for a character of the byte: a one pulse for
    the digit 1. *)
Definition one_bit (c : ascii) : bool := Ascii.eqb c "1".

(** The kinds of the data pulses of a string, first character first. *)
Definition bit_kinds (bytes : string) : list bool :=
  map one_bit (list_ascii_of_string bytes).

(** A string of the characters 0 and 1. *)
Definition bitstring (s : string) : bool :=
  Py.every (fun c => Ascii.eqb c "0" || Ascii.eqb c "1") s.

(** *** Bytes in hexadecimal *)

(** A character that [int(s, 16)] and [bytes.fromhex] read as a digit. *)
Definition hexchar (c : ascii) : bool :=
  match HexString.ascii_to_digit c with
  | Some _ => true
  | None => false
  end.

(** A byte in hexadecimal: two digits. *)
Definition hex_byte (s : string) : bool :=
  match s with
  | String a (String b "") => hexchar a && hexchar b
  | _ => false
  end.

(** A list of bytes in hexadecimal. *)
Definition hex_bytes (l : list string) : Prop := Forall (fun s => hex_byte s = true) l.

(** A digit of a number written in hexadecimal and upper case. *)
Definition hex_upper_digit (c : ascii) : bool :=
  Py.isdigit c || Py.between 65 70 c.

(** *** Words and lines *)

(** The codes of the letters of a word, and the codes of a word when no
    blank is dropped: the table's code for a mnemonic, the letters otherwise. *)
Definition letters (word : string) : list string :=
  map string_to_hex (list_ascii_of_string word).

Definition plain_word (word : string) : list string :=
  match lookup word mnemonic_index with
  | Some code => [code]
  | None => letters word
  end.

(** A word without its first blank. *)
Fixpoint without_first_blank (word : string) : string :=
  match word with
  | "" => ""
  | String c word' =>
      if (Py.ord c =? 32)%N then word' else String c (without_first_blank word')
  end.

(** The word has a blank in it. *)
Definition has_blank (word : string) : bool :=
  negb (Py.every (fun c => negb (Py.ord c =? 32)%N) word).

(** The codes of the second word after a mnemonic. *)
Definition second_word (word : string) : list string :=
  match lookup word mnemonic_index with
  | Some code => [code]
  | None => letters (without_first_blank word)
  end.

(** The codes of the body of a line, carriage return included. *)
Definition code_bytes (code : string) : list string :=
  match encode_words 0 (Py.split_spaces code ++ [String "013" ""]) start_state with
  | Some st => code_segment_hex st
  | None => []
  end.

(** The bytes of a line: the label, the length and the codes. *)
Definition token_stream (line : N * string) : list string :=
  let '(label, code) := line in
  ([Py.take 2 (integer_to_hex label 4); Py.drop 2 (integer_to_hex label 4);
    integer_to_hex (N.of_nat (List.length (code_bytes code) + 1)) 2]
   ++ code_bytes code)%list.

(** The lines of a file that have a label, with their code. *)
Definition accepted_lines (text_segment : list string) : list (N * string) :=
  flat_map (fun line => match Extract_Number_String line with
                        | (Some label, code) => [(label, code)]
                        | (None, _) => []
                        end) text_segment.

(** A line fits when its label is below 65536 and its length is one byte;
    a file fits when its lines do and its size is below 65536. *)
Definition line_fits (line : N * string) : bool :=
  let '(label, code) := line in
  (label <? 65536)%N && (N.of_nat (List.length (code_bytes code) + 1) <? 256)%N.

Definition block_fits (text_content : string) : bool :=
  let lines := accepted_lines (Py.split "010" text_content) in
  forallb line_fits lines
  && (N.of_nat (List.length (flat_map token_stream lines) + 10) <? 65536)%N.

(** A line that does not start with a digit, and a line without a line
    feed in it. *)
Definition no_label (line : string) : bool :=
  match line with
  | "" => true
  | String c _ => negb (Py.isdigit c)
  end.

Definition one_line (line : string) : bool :=
  Py.every (fun c => negb (Ascii.eqb c "010")) line.

(** A character that [upper] leaves as it is. *)
Definition is_upper (c : ascii) : bool := Ascii.eqb (Py.upper_char c) c.

(** A code that is a mnemonic's, or the code of a character in the class. *)
Definition code_of (p : ascii -> bool) (h : string) : Prop :=
  In h (map snd mnemonic_index) \/ exists c, p c = true /\ h = string_to_hex c.

(** A character of 7-bit ASCII. *)
Definition ascii7 (c : ascii) : bool := (Py.ord c <? 128)%N.

(** The code of a mnemonic read as a number is from 128 up; the code of a
    character of 7-bit ASCII is below 128. *)
Definition code_class (h : string) : Prop :=
  exists v, Py.int h 16 = Some v
            /\ ((128 <= v < 256)%N /\ In h (map snd mnemonic_index)
                \/ (v < 128)%N /\ exists c, h = string_to_hex c /\ Py.ord c = v).





(** The word is in the mnemonic table. *)
Definition is_mnemonic (word : string) : bool :=
  match lookup word mnemonic_index with
  | Some _ => true
  | None => false
  end.

(** The bytes of the lines of a file, in the order of the file. *)
Definition block_body (text_content : string) : list string :=
  flat_map token_stream (accepted_lines (Py.split "010" text_content)).

(** The sum of the bytes of the block that follow the checksum. *)
Definition block_sum (text_content : string) : option N :=
  match Create_HexData text_content with
  | Some (_ :: _ :: final_hex_array) => sum_hex final_hex_array 0
  | _ => None
  end.

(** *** A file of three long remarks *)

(** A string of [n] times the character [c], and a remark of 250 letters. *)
Fixpoint copies (n : nat) (c : ascii) : string :=
  match n with
  | O => ""
  | S k => String c (copies k c)
  end.

Definition remark : string := "10 REM " ++ copies 250 "Z".

Definition three_remarks : string :=
  remark ++ String "010" remark ++ String "010" remark.

(** *** Checks by enumeration *)

(** The binary string of the byte [v] has eight characters, all of them 0
    or 1, and reads back as [v]. *)
Definition byte_check (v : N) : bool :=
  (String.length (binary_string v 8) =? 8)%nat
  && bitstring (binary_string v 8)
  && match Py.int (binary_string v 8) 2 with
     | Some w => (w =? v)%N
     | None => false
     end.

(** [P] holds of every number below [n]. *)
Fixpoint below (n : nat) (P : N -> bool) : bool :=
  match n with
  | O => true
  | S k => P (N.of_nat k) && below k P
  end.

(** Two lists of pulse kinds are the same. *)
Fixpoint bits_eqb (a b : list bool) : bool :=
  match a, b with
  | [], [] => true
  | x :: a', y :: b' => Bool.eqb x y && bits_eqb a' b'
  | _, _ => false
  end.

(** The modulator makes the frame of [v], for either start bit. *)
Definition frame_check (v : N) : bool :=
  match Encode_Data [true] [false] 0 (binary_string v 8),
        Encode_Data [true] [false] 1 (binary_string v 8) with
  | Some k0, Some k1 => bits_eqb k0 (frame 0 v) && bits_eqb k1 (frame 1 v)
  | _, _ => false
  end.

(** ** Proofs *)

(** Splits a conjunction, and nothing else. *)
Ltac conjuncts := repeat match goal with |- _ /\ _ => split end.

Ltac each_char c := destruct c as [[|] [|] [|] [|] [|] [|] [|] [|]].

(** *** Checking a property of every number below a bound *)

Lemma below_spec (n : nat) (P : N -> bool) :
  below n P = true -> forall v, (v < N.of_nat n)%N -> P v = true.
Proof.
  induction n as [|k IH]; simpl; intros H v Hv; [lia|].
  apply andb_prop in H. destruct H as [Hk Hr].
  destruct (N.eq_dec v (N.of_nat k)) as [->|Hne]; [exact Hk|].
  apply IH; [exact Hr|lia].
Qed.

Lemma bits_eqb_eq (a b : list bool) : bits_eqb a b = true -> a = b.
Proof.
  revert b. induction a as [|x a IH]; intros [|y b]; simpl; try discriminate; auto.
  intros H. apply andb_prop in H. destruct H as [Hxy Hab].
  apply Bool.eqb_prop in Hxy. f_equal; auto.
Qed.

(** *** The modulator *)

Section ModulatorFacts.

Context {sample : Type}.
Variables one_pulse zero_pulse : list sample.

Lemma waves_app (k1 k2 : list bool) :
  waves one_pulse zero_pulse (k1 ++ k2) =
  (waves one_pulse zero_pulse k1 ++ waves one_pulse zero_pulse k2)%list.
Proof. apply flat_map_app. Qed.

Lemma waves_one (k : bool) : waves one_pulse zero_pulse [k] = wave one_pulse zero_pulse k.
Proof. unfold waves. simpl. apply app_nil_r. Qed.

(** The loop over the bits does the same whatever the pulses are made of. *)
Lemma encode_bits_waves (bytes : string) (kinds : list bool) (p : N) :
  encode_bits one_pulse zero_pulse bytes (waves one_pulse zero_pulse kinds) p =
  option_map (fun r => (waves one_pulse zero_pulse (fst r), snd r))
    (encode_bits [true] [false] bytes kinds p).
Proof.
  revert kinds p. induction bytes as [|bit bytes IH]; intros kinds p; simpl; [reflexivity|].
  destruct (HexString.ascii_to_digit bit) as [d|]; [|reflexivity].
  destruct (d <? 10)%N; [|reflexivity].
  destruct (d =? 1)%N.
  - rewrite <- (IH (kinds ++ [true])%list), waves_app, waves_one. reflexivity.
  - rewrite <- (IH (kinds ++ [false])%list), waves_app, waves_one. reflexivity.
Qed.

Lemma Encode_Data_waves (STARTBIT : Z) (bytes : string) :
  Encode_Data one_pulse zero_pulse STARTBIT bytes =
  option_map (waves one_pulse zero_pulse) (Encode_Data [true] [false] STARTBIT bytes).
Proof.
  unfold Encode_Data.
  replace (if (STARTBIT =? 0)%Z then zero_pulse else one_pulse)
    with (waves one_pulse zero_pulse (if (STARTBIT =? 0)%Z then [false] else [true]))
    by (destruct (STARTBIT =? 0)%Z; apply waves_one).
  rewrite encode_bits_waves.
  destruct (encode_bits [true] [false] _ _ _) as [[kinds p]|]; simpl; [|reflexivity].
  destruct (negb (is_even p)); simpl; rewrite waves_app, waves_one; reflexivity.
Qed.

(** Only whether the start bit is zero matters. *)
Lemma Encode_Data_startbit (STARTBIT : Z) (bytes : string) :
  Encode_Data one_pulse zero_pulse STARTBIT bytes =
  Encode_Data one_pulse zero_pulse (if (STARTBIT =? 0)%Z then 0 else 1) bytes.
Proof.
  unfold Encode_Data. destruct (STARTBIT =? 0)%Z; reflexivity.
Qed.

Lemma length_times (pulse : list sample) (n : Z) :
  List.length (times pulse n) = (Z.to_nat n * List.length pulse)%nat.
Proof.
  unfold times. induction (Z.to_nat n) as [|k IH]; simpl; [reflexivity|].
  rewrite length_app, IH. reflexivity.
Qed.

End ModulatorFacts.

Lemma frame_check_all : below 256 frame_check = true.
Proof. vm_compute. reflexivity. Qed.

Lemma Encode_Data_frame (STARTBIT : Z) (v : N) :
  (v < 256)%N -> STARTBIT = 0%Z \/ STARTBIT = 1%Z ->
  Encode_Data [true] [false] STARTBIT (binary_string v 8) = Some (frame STARTBIT v).
Proof.
  intros Hv Hs.
  pose proof (below_spec 256 frame_check frame_check_all v Hv) as H.
  unfold frame_check in H.
  destruct (Encode_Data [true] [false] 0 _) as [k0|] eqn:E0; [|discriminate].
  destruct (Encode_Data [true] [false] 1 _) as [k1|] eqn:E1; [|discriminate].
  apply andb_prop in H. destruct H as [H0 H1].
  apply bits_eqb_eq in H0, H1.
  destruct Hs as [->| ->]; congruence.
Qed.

Lemma ones_app (k1 k2 : list bool) : ones (k1 ++ k2) = (ones k1 + ones k2)%nat.
Proof. unfold ones. apply count_occ_app. Qed.

Lemma ones_with_parity (kinds : list bool) :
  Nat.Even (ones (kinds ++ [Nat.odd (ones kinds)])).
Proof.
  rewrite ones_app. apply Nat.even_spec.
  destruct (Nat.odd (ones kinds)) eqn:E; unfold ones at 2; simpl.
  - rewrite Nat.add_1_r, Nat.even_succ. exact E.
  - rewrite Nat.add_0_r, <- Nat.negb_odd, E. reflexivity.
Qed.

Section ModulatorTotal.

Context {sample : Type}.
Variables one_pulse zero_pulse : list sample.

Lemma encode_bits_total (bytes : string) (encoded : list sample) (p : N) :
  bitstring bytes = true ->
  exists r, encode_bits one_pulse zero_pulse bytes encoded p = Some r.
Proof.
  revert encoded p. induction bytes as [|bit bytes IH]; intros encoded p H.
  - eexists. reflexivity.
  - unfold bitstring in H. simpl in H. apply andb_prop in H. destruct H as [Hb Hr].
    apply orb_prop in Hb.
    destruct Hb as [Hb|Hb]; apply Ascii.eqb_eq in Hb; subst bit; simpl; apply IH; exact Hr.
Qed.

Lemma bitstring_app (a b : string) :
  bitstring (a ++ b) = bitstring a && bitstring b.
Proof.
  unfold bitstring. induction a as [|c a IH]; simpl; [reflexivity|].
  rewrite IH. apply andb_assoc.
Qed.

Lemma bitstring_reverse (s : string) : bitstring (Py.reverse s) = bitstring s.
Proof.
  induction s as [|c s IH]; [reflexivity|].
  simpl Py.reverse. rewrite bitstring_app, IH.
  unfold bitstring. simpl. rewrite andb_true_r. apply andb_comm.
Qed.

Lemma Encode_Data_total (STARTBIT : Z) (bytes : string) :
  bitstring bytes = true ->
  exists frame, Encode_Data one_pulse zero_pulse STARTBIT bytes = Some frame.
Proof.
  intros H. unfold Encode_Data.
  destruct (encode_bits_total (Py.reverse bytes)
              (if (STARTBIT =? 0)%Z then zero_pulse else one_pulse) 0) as [[e p] E].
  - rewrite bitstring_reverse. exact H.
  - rewrite E. destruct (negb (is_even p)); eexists; reflexivity.
Qed.

Lemma encode_all_total (STARTBIT : Z) (Binary_Data : list string) :
  forallb bitstring Binary_Data = true ->
  exists frames, encode_all one_pulse zero_pulse STARTBIT Binary_Data = Some frames.
Proof.
  induction Binary_Data as [|byte rest IH]; simpl; intros H.
  - eexists. reflexivity.
  - apply andb_prop in H. destruct H as [Hb Hr].
    destruct (Encode_Data_total STARTBIT byte Hb) as [f Ef].
    destruct (IH Hr) as [fs Efs]. rewrite Ef, Efs. eexists. reflexivity.
Qed.

End ModulatorTotal.

(** C5: for every byte value below 256, whatever the start bit, the frame
    is a start pulse, eight data pulses and a parity pulse, and the number of
    one pulses among the eight data pulses and the parity pulse is even; the
    start pulse is not counted. *)
Theorem Encode_Data_even_parity {sample : Type} (one_pulse zero_pulse : list sample)
    (STARTBIT : Z) (v : N) :
  (v < 256)%N ->
  exists (start : bool) (data : list bool) (parity : bool),
    Encode_Data [true] [false] STARTBIT (binary_string v 8) = Some (start :: data ++ [parity])
    /\ Encode_Data one_pulse zero_pulse STARTBIT (binary_string v 8) =
         Some (wave one_pulse zero_pulse start
               ++ waves one_pulse zero_pulse data
               ++ wave one_pulse zero_pulse parity)%list
    /\ List.length data = 8%nat
    /\ Nat.Even (ones (data ++ [parity])).
Proof.
  intros Hv.
  set (sb := if (STARTBIT =? 0)%Z then 0%Z else 1%Z).
  assert (Hs : sb = 0%Z \/ sb = 1%Z) by (subst sb; destruct (STARTBIT =? 0)%Z; auto).
  pose proof (Encode_Data_frame sb v Hv Hs) as E.
  exists (sb =? 1)%Z, (data_bits v), (Nat.odd (ones (data_bits v))).
  repeat split.
  - rewrite Encode_Data_startbit. exact E.
  - rewrite Encode_Data_waves, Encode_Data_startbit. fold sb. rewrite E.
    unfold frame, waves. cbn [option_map flat_map]. f_equal. f_equal.
    rewrite flat_map_app. cbn [flat_map]. rewrite app_nil_r. reflexivity.
  - apply ones_with_parity.
Qed.

Lemma Encode_Data_even_parity_witness :
  exists (start : bool) (data : list bool) (parity : bool),
    Encode_Data [true] [false] 1 (binary_string 148 8) = Some (start :: data ++ [parity])
    /\ Encode_Data one_pulse zero_pulse 1 (binary_string 148 8) =
         Some (wave one_pulse zero_pulse start
               ++ waves one_pulse zero_pulse data
               ++ wave one_pulse zero_pulse parity)%list
    /\ List.length data = 8%nat
    /\ Nat.Even (ones (data ++ [parity])).
Proof. apply (Encode_Data_even_parity one_pulse zero_pulse 1 148). reflexivity. Defined.

(** C6: for every byte value below 256 and a start bit of 0 or 1, the frame
    is ten pulses: the start pulse, a one pulse exactly when the start bit is
    1; the eight data pulses, bit 0 of the byte first and bit 7 last, each a
    one pulse when its bit is set and a zero pulse otherwise; and the parity
    pulse. *)
Theorem Encode_Data_ten_pulses {sample : Type} (one_pulse zero_pulse : list sample)
    (STARTBIT : Z) (v : N) :
  (v < 256)%N -> STARTBIT = 0%Z \/ STARTBIT = 1%Z ->
  Encode_Data [true] [false] STARTBIT (binary_string v 8) =
    Some ((STARTBIT =? 1)%Z
          :: map (N.testbit v) [0; 1; 2; 3; 4; 5; 6; 7]%N
          ++ [Nat.odd (ones (map (N.testbit v) [0; 1; 2; 3; 4; 5; 6; 7]%N))])%list
  /\ Encode_Data one_pulse zero_pulse STARTBIT (binary_string v 8) =
       Some (wave one_pulse zero_pulse (STARTBIT =? 1)%Z
             ++ flat_map (fun i => wave one_pulse zero_pulse (N.testbit v i))
                  [0; 1; 2; 3; 4; 5; 6; 7]%N
             ++ wave one_pulse zero_pulse
                  (Nat.odd (ones (map (N.testbit v) [0; 1; 2; 3; 4; 5; 6; 7]%N))))%list.
Proof.
  intros Hv Hs. pose proof (Encode_Data_frame STARTBIT v Hv Hs) as E.
  split; [exact E|].
  rewrite Encode_Data_waves, E. unfold frame, data_bits. simpl option_map. f_equal.
  unfold waves. simpl. rewrite !app_nil_r, <- !app_assoc. reflexivity.
Qed.

Lemma Encode_Data_ten_pulses_witness :
  Encode_Data [true] [false] 0 (binary_string 13 8) =
    Some ((0 =? 1)%Z
          :: map (N.testbit 13) [0; 1; 2; 3; 4; 5; 6; 7]%N
          ++ [Nat.odd (ones (map (N.testbit 13) [0; 1; 2; 3; 4; 5; 6; 7]%N))])%list
  /\ Encode_Data one_pulse zero_pulse 0 (binary_string 13 8) =
       Some (wave one_pulse zero_pulse (0 =? 1)%Z
             ++ flat_map (fun i => wave one_pulse zero_pulse (N.testbit 13 i))
                  [0; 1; 2; 3; 4; 5; 6; 7]%N
             ++ wave one_pulse zero_pulse
                  (Nat.odd (ones (map (N.testbit 13) [0; 1; 2; 3; 4; 5; 6; 7]%N))))%list.
Proof.
  apply (Encode_Data_ten_pulses one_pulse zero_pulse 0 13); [reflexivity | left; reflexivity].
Defined.

Lemma length_zero_pulse : List.length zero_pulse = 10%nat.
Proof. reflexivity. Qed.

Lemma length_one_pulse : List.length one_pulse = 26%nat.
Proof. reflexivity. Qed.

Lemma length_leader {sample : Type} (zero_pulse : list sample) (FRAMERATE LEADER : Z) :
  (0 <= FRAMERATE)%Z -> (0 <= LEADER)%Z ->
  Z.of_nat (List.length (leader zero_pulse FRAMERATE LEADER)) =
  (Z.of_nat (List.length zero_pulse)
   * (FRAMERATE / Z.of_nat (List.length zero_pulse)) * LEADER)%Z.
Proof.
  intros HF HL. unfold leader. rewrite length_times.
  destruct (List.length zero_pulse) as [|k] eqn:E.
  - cbn [Z.of_nat]. rewrite Nat.mul_0_r. reflexivity.
  - rewrite Z.quot_div_nonneg by lia.
    assert (0 <= FRAMERATE / Z.of_nat (S k))%Z by (apply Z.div_pos; lia).
    rewrite Nat2Z.inj_mul, Z2Nat.id by nia. ring.
Qed.

(** C7, as stated, fails: at a frame rate of 11025 and eight seconds of
    leader the program writes 88160 leader samples, 40 short of
    8 x 11025, which is more than a cycle of the zero pulse (10 samples) and
    more than a cycle of the one pulse (26 samples). *)
Lemma leader_not_within_one_cycle :
  Z.of_nat (List.length (leader zero_pulse 11025 8)) = 88160%Z
  /\ ~ (Z.abs (8 * 11025 - Z.of_nat (List.length (leader zero_pulse 11025 8)))
        <= Z.of_nat (List.length zero_pulse))%Z
  /\ ~ (Z.abs (8 * 11025 - Z.of_nat (List.length (leader zero_pulse 11025 8)))
        <= Z.of_nat (List.length one_pulse))%Z.
Proof.
  rewrite length_leader by lia.
  rewrite length_zero_pulse, length_one_pulse.
  split; [reflexivity|].
  split; intros H; vm_compute in H; apply H; reflexivity.
Qed.

(** C7, amended: for every zero pulse that is not empty, every frame rate and
    every number of leader seconds that are not negative, the leader is a
    whole number of zero pulses, [FRAMERATE / cycle] of them for each second;
    it is never longer than leader_seconds x framerate samples and falls
    short of it by less than one cycle for each leader second.  The trailer
    is exactly [BLANKS] one pulses, and the stream written for bytes that are
    strings of bits is the leader, the frames and the trailer. *)
Theorem Write_Wav_leader_trailer {sample : Type} (one_pulse zero_pulse : list sample)
    (FRAMERATE LEADER STARTBIT BLANKS : Z) (Binary_Data : list string) :
  (0 < List.length zero_pulse)%nat ->
  (0 <= FRAMERATE)%Z -> (0 <= LEADER)%Z -> (0 <= BLANKS)%Z ->
  forallb bitstring Binary_Data = true ->
  let cycle := Z.of_nat (List.length zero_pulse) in
  let n := Z.of_nat (List.length (leader zero_pulse FRAMERATE LEADER)) in
  (exists frames,
     encode_all one_pulse zero_pulse STARTBIT Binary_Data = Some frames
     /\ Write_Wav one_pulse zero_pulse FRAMERATE LEADER STARTBIT BLANKS Binary_Data =
          Some (leader zero_pulse FRAMERATE LEADER ++ frames ++ trailer one_pulse BLANKS)%list)
  /\ n = (cycle * (FRAMERATE / cycle) * LEADER)%Z
  /\ (n <= LEADER * FRAMERATE)%Z
  /\ (LEADER * FRAMERATE - n <= LEADER * (cycle - 1))%Z
  /\ trailer one_pulse BLANKS = List.concat (repeat one_pulse (Z.to_nat BLANKS))
  /\ Z.of_nat (List.length (trailer one_pulse BLANKS)) =
       (BLANKS * Z.of_nat (List.length one_pulse))%Z.
Proof.
  intros Hz HF HL HB Hbits cycle n.
  assert (Hn : n = (cycle * (FRAMERATE / cycle) * LEADER)%Z)
    by (apply length_leader; assumption).
  assert (Hc : (0 < cycle)%Z) by (subst cycle; lia).
  pose proof (Z.mul_div_le FRAMERATE cycle Hc) as Hle.
  pose proof (Z.mod_pos_bound FRAMERATE cycle Hc) as Hmod.
  pose proof (Z.div_mod FRAMERATE cycle ltac:(lia)) as Hdm.
  repeat split.
  - destruct (encode_all_total one_pulse zero_pulse STARTBIT Binary_Data Hbits) as [frames E].
    exists frames. split; [exact E|].
    unfold Write_Wav. rewrite E.
    destruct (List.length zero_pulse =? 0)%nat eqn:E0; [|reflexivity].
    apply Nat.eqb_eq in E0. lia.
  - exact Hn.
  - rewrite Hn. nia.
  - rewrite Hn. nia.
  - unfold trailer. rewrite length_times. rewrite Nat2Z.inj_mul, Z2Nat.id by lia. reflexivity.
Qed.

Lemma Write_Wav_leader_trailer_witness :
  (exists frames,
     encode_all one_pulse zero_pulse 1 ["00001101"] = Some frames
     /\ Write_Wav one_pulse zero_pulse 11025 8 1 25 ["00001101"] =
          Some (leader zero_pulse 11025 8 ++ frames ++ trailer one_pulse 25)%list)
  /\ Z.of_nat (List.length (leader zero_pulse 11025 8)) =
       (Z.of_nat (List.length zero_pulse)
        * (11025 / Z.of_nat (List.length zero_pulse)) * 8)%Z
  /\ (Z.of_nat (List.length (leader zero_pulse 11025 8)) <= 8 * 11025)%Z
  /\ (8 * 11025 - Z.of_nat (List.length (leader zero_pulse 11025 8))
      <= 8 * (Z.of_nat (List.length zero_pulse) - 1))%Z
  /\ trailer one_pulse 25 = List.concat (repeat one_pulse (Z.to_nat 25))
  /\ Z.of_nat (List.length (trailer one_pulse 25)) =
       (25 * Z.of_nat (List.length one_pulse))%Z.
Proof.
  apply (Write_Wav_leader_trailer one_pulse zero_pulse 11025 8 1 25 ["00001101"]);
    [rewrite length_zero_pulse; lia | lia | lia | lia | reflexivity].
Defined.

(** *** Characters *)

Lemma hexchar_digit (c : ascii) :
  hexchar c = true -> exists d, HexString.ascii_to_digit c = Some d /\ (d < 16)%N.
Proof.
  each_char c; vm_compute; intros H; try discriminate H;
    eexists; (split; [reflexivity | reflexivity]).
Qed.

Lemma hexchar_not_space (c : ascii) :
  hexchar c = true -> Py.isspace c = false /\ Ascii.eqb c " " = false.
Proof.
  each_char c; vm_compute; intros H; try discriminate H; split; reflexivity.
Qed.

Lemma hexchar_not_space_bytes (c : ascii) :
  hexchar c = true -> Py.isspace_bytes c = false.
Proof. each_char c; vm_compute; intros H; try discriminate H; reflexivity. Qed.

Lemma upper_char_digit (c : ascii) :
  HexString.ascii_to_digit (Py.upper_char c) = HexString.ascii_to_digit c.
Proof. each_char c; vm_compute; reflexivity. Qed.

Lemma upper_char_idem (c : ascii) : Py.upper_char (Py.upper_char c) = Py.upper_char c.
Proof. each_char c; vm_compute; reflexivity. Qed.

Lemma upper_char_eqb_newline (c : ascii) :
  Ascii.eqb (Py.upper_char c) "010" = Ascii.eqb c "010".
Proof. each_char c; vm_compute; reflexivity. Qed.

Lemma digit_char_digit (d : N) :
  (d < 16)%N -> HexString.ascii_to_digit (Py.digit_char d) = Some d.
Proof.
  intros H.
  pose proof (below_spec 16
                (fun d => match HexString.ascii_to_digit (Py.digit_char d) with
                          | Some e => (e =? d)%N
                          | None => false
                          end) eq_refl d H) as E.
  cbv beta in E. destruct (HexString.ascii_to_digit (Py.digit_char d)); [|discriminate].
  apply N.eqb_eq in E. congruence.
Qed.

Lemma string_to_hex_byte (c : ascii) : hex_byte (string_to_hex c) = true.
Proof. each_char c; vm_compute; reflexivity. Qed.

Lemma hexchar_not_sign (c : ascii) :
  hexchar c = true -> Ascii.eqb c "+" || Ascii.eqb c "-" = false.
Proof. each_char c; vm_compute; intros H; try discriminate H; reflexivity. Qed.

Lemma hexchar_upper (c : ascii) : hexchar (Py.upper_char c) = hexchar c.
Proof. unfold hexchar. rewrite upper_char_digit. reflexivity. Qed.

(** *** Strings *)

Lemma append_assoc (a b c : string) : (a ++ b) ++ c = a ++ (b ++ c).
Proof. induction a as [|x a IH]; simpl; [reflexivity|]. rewrite IH. reflexivity. Qed.

Lemma append_nil_r (a : string) : a ++ "" = a.
Proof. induction a as [|x a IH]; simpl; [reflexivity|]. rewrite IH. reflexivity. Qed.

Lemma length_append (a b : string) :
  String.length (a ++ b) = (String.length a + String.length b)%nat.
Proof. induction a as [|x a IH]; simpl; [reflexivity|]. rewrite IH. reflexivity. Qed.

Lemma every_append (p : ascii -> bool) (a b : string) :
  Py.every p (a ++ b) = Py.every p a && Py.every p b.
Proof.
  induction a as [|x a IH]; simpl; [reflexivity|].
  rewrite IH. apply andb_assoc.
Qed.

Lemma every_upper (p : ascii -> bool) (s : string) :
  (forall c, p (Py.upper_char c) = p c) -> Py.every p (Py.upper s) = Py.every p s.
Proof.
  intros H. induction s as [|x s IH]; simpl; [reflexivity|].
  rewrite H, IH. reflexivity.
Qed.

Lemma length_upper (s : string) : String.length (Py.upper s) = String.length s.
Proof. induction s as [|x s IH]; simpl; [reflexivity|]. rewrite IH. reflexivity. Qed.

Lemma length_zeros (n : nat) : String.length (Py.zeros n) = n.
Proof. induction n as [|k IH]; simpl; [reflexivity|]. rewrite IH. reflexivity. Qed.

Lemma every_zeros (n : nat) : Py.every hexchar (Py.zeros n) = true.
Proof. induction n as [|k IH]; simpl; [reflexivity|]. exact IH. Qed.

(** *** Numbers in hexadecimal *)

Lemma int_digits_append (base : N) (a b : string) (acc : N) :
  Py.int_digits base (a ++ b) acc =
  match Py.int_digits base a acc with
  | Some x => Py.int_digits base b x
  | None => None
  end.
Proof.
  revert acc. induction a as [|c a IH]; intros acc; simpl; [reflexivity|].
  destruct (HexString.ascii_to_digit c) as [d|]; [|reflexivity].
  destruct (d <? base)%N; [apply IH | reflexivity].
Qed.

Lemma int_digits_upper (base : N) (s : string) (acc : N) :
  Py.int_digits base (Py.upper s) acc = Py.int_digits base s acc.
Proof.
  revert acc. induction s as [|c s IH]; intros acc; simpl; [reflexivity|].
  rewrite upper_char_digit.
  destruct (HexString.ascii_to_digit c) as [d|]; [|reflexivity].
  destruct (d <? base)%N; [apply IH | reflexivity].
Qed.

Lemma int_digits_cons (base : N) (c : ascii) (s : string) (acc : N) :
  Py.int_digits base (String c s) acc =
  match HexString.ascii_to_digit c with
  | Some d => if (d <? base)%N then Py.int_digits base s (base * acc + d) else None
  | None => None
  end.
Proof. reflexivity. Qed.

Lemma int_digits_zeros (n : nat) : Py.int_digits 16 (Py.zeros n) 0 = Some 0%N.
Proof. induction n as [|k IH]; simpl; [reflexivity|]. exact IH. Qed.

Lemma to_digits_step (f : nat) (base n : N) (acc : string) :
  Py.to_digits (S f) base n acc =
  if (n / base =? 0)%N then String (Py.digit_char (n mod base)) acc
  else Py.to_digits f base (n / base) (String (Py.digit_char (n mod base)) acc).
Proof. reflexivity. Qed.

(** The digits written by [to_digits], given fuel for them: they read back
    as the number, and they are as few as the number allows. *)
Lemma to_digits_spec (fuel : nat) :
  forall (n : N) (acc : string),
    (n < 16 ^ N.of_nat (S fuel))%N ->
    exists D,
      Py.to_digits (S fuel) 16 n acc = D ++ acc
      /\ Py.every hexchar D = true
      /\ (1 <= String.length D)%nat
      /\ (forall a, Py.int_digits 16 D a =
                    Some (a * 16 ^ N.of_nat (String.length D) + n)%N)
      /\ (forall k, (n < 16 ^ N.of_nat (S k))%N -> (String.length D <= S k)%nat).
Proof.
  assert (one : forall n acc, (n < 16)%N ->
            exists D, String (Py.digit_char (n mod 16)) acc = D ++ acc
              /\ Py.every hexchar D = true
              /\ (1 <= String.length D)%nat
              /\ (forall a, Py.int_digits 16 D a =
                            Some (a * 16 ^ N.of_nat (String.length D) + n)%N)
              /\ (forall k, (n < 16 ^ N.of_nat (S k))%N -> (String.length D <= S k)%nat)).
  { intros n acc Hn. exists (String (Py.digit_char n) "").
    rewrite N.mod_small by exact Hn.
    pose proof (digit_char_digit n Hn) as Hd.
    repeat split.
    - simpl. unfold hexchar. rewrite Hd. reflexivity.
    - simpl. lia.
    - intros a. cbn [Py.int_digits String.length]. rewrite Hd.
      destruct (n <? 16)%N eqn:E; [|apply N.ltb_ge in E; lia].
      f_equal. change (16 ^ N.of_nat 1)%N with 16%N. lia.
    - intros k _. simpl. lia. }
  induction fuel as [|f IH]; intros n acc Hn.
  - change (16 ^ N.of_nat 1)%N with 16%N in Hn.
    rewrite to_digits_step. cbn [Py.to_digits]. destruct (n / 16 =? 0)%N; apply one; exact Hn.
  - rewrite to_digits_step. destruct (n / 16 =? 0)%N eqn:E.
    + apply one. apply N.eqb_eq in E.
      destruct (N.lt_ge_cases n 16) as [Hlt|Hge]; [exact Hlt|].
      pose proof (N.Div0.div_le_mono n 16 16) as Hq.
      pose proof (N.div_mod' n 16). pose proof (N.mod_lt n 16 ltac:(lia)). lia.
    + apply N.eqb_neq in E.
      assert (Hq : (n / 16 < 16 ^ N.of_nat (S f))%N).
      { apply N.Div0.div_lt_upper_bound.
        rewrite (Nat2N.inj_succ (S f)), N.pow_succ_r' in Hn. exact Hn. }
      destruct (IH (n / 16)%N (String (Py.digit_char (n mod 16)) acc) Hq)
        as (D & HD & Hch & Hlen & Hint & Hmin).
      pose proof (N.mod_lt n 16 ltac:(lia)) as Hm.
      pose proof (digit_char_digit (n mod 16) Hm) as Hd.
      exists (D ++ String (Py.digit_char (n mod 16)) "").
      repeat split.
      * rewrite HD, append_assoc. reflexivity.
      * rewrite every_append, Hch. simpl. unfold hexchar. rewrite Hd. reflexivity.
      * rewrite length_append. simpl. lia.
      * intros a. rewrite int_digits_append, Hint. cbn [Py.int_digits]. rewrite Hd.
        destruct (n mod 16 <? 16)%N eqn:E'; [|apply N.ltb_ge in E'; lia].
        f_equal. rewrite length_append. simpl String.length.
        rewrite Nat.add_1_r, Nat2N.inj_succ, N.pow_succ_r'.
        pose proof (N.div_mod' n 16). lia.
      * intros k Hk. rewrite length_append. simpl String.length.
        destruct k as [|k'].
        -- change (16 ^ N.of_nat 1)%N with 16%N in Hk.
           exfalso. apply E. apply N.div_small. exact Hk.
        -- assert (n / 16 < 16 ^ N.of_nat (S k'))%N.
           { apply N.Div0.div_lt_upper_bound.
             rewrite (Nat2N.inj_succ (S k')), N.pow_succ_r' in Hk. exact Hk. }
           specialize (Hmin k' H). lia.
Qed.

Lemma digits_fuel (n : N) : (n < 16 ^ N.of_nat (S (N.to_nat (N.log2 n))))%N.
Proof.
  rewrite Nat2N.inj_succ, N2Nat.id.
  destruct (N.eq_dec n 0) as [->|Hn]; [reflexivity|].
  destruct (N.log2_spec n ltac:(lia)) as [_ Hlt].
  eapply N.lt_le_trans; [exact Hlt|].
  apply N.pow_le_mono_l. lia.
Qed.

Lemma zfill_digits (width : nat) (D : string) :
  Py.every hexchar D = true ->
  Py.zfill width D = Py.zeros (width - String.length D) ++ D.
Proof.
  intros H. unfold Py.zfill. destruct D as [|c D]; [symmetry; apply append_nil_r|].
  simpl in H. apply andb_prop in H. destruct H as [Hc _].
  rewrite (hexchar_not_sign c Hc). reflexivity.
Qed.

(** [integer_to_hex]: zeros in front of the digits of the number. *)
Lemma integer_to_hex_shape (var : N) (pad : nat) :
  exists D,
    integer_to_hex var pad = Py.zeros (pad - String.length D) ++ D
    /\ Py.every hexchar D = true
    /\ (1 <= String.length D)%nat
    /\ (forall a, Py.int_digits 16 D a =
                  Some (a * 16 ^ N.of_nat (String.length D) + var)%N)
    /\ (forall k, (var < 16 ^ N.of_nat (S k))%N -> (String.length D <= S k)%nat).
Proof.
  destruct (to_digits_spec (N.to_nat (N.log2 var)) var "" (digits_fuel var))
    as (D & HD & Hch & Hlen & Hint & Hmin).
  rewrite append_nil_r in HD.
  exists (Py.upper D).
  assert (Hup : Py.every hexchar (Py.upper D) = true)
    by (rewrite every_upper; [exact Hch | exact hexchar_upper]).
  repeat split.
  - unfold integer_to_hex, Py.hex, Py.digits. rewrite HD.
    cbn [append Py.drop]. apply zfill_digits. exact Hup.
  - exact Hup.
  - rewrite length_upper. exact Hlen.
  - intros a. rewrite int_digits_upper, length_upper. apply Hint.
  - intros k Hk. rewrite length_upper. apply Hmin. exact Hk.
Qed.

Lemma integer_to_hex_hexchars (var : N) (pad : nat) :
  Py.every hexchar (integer_to_hex var pad) = true.
Proof.
  destruct (integer_to_hex_shape var pad) as (D & -> & Hch & _).
  rewrite every_append, every_zeros, Hch. reflexivity.
Qed.

Lemma integer_to_hex_length_ge (var : N) (pad : nat) :
  (pad <= String.length (integer_to_hex var pad))%nat
  /\ (1 <= String.length (integer_to_hex var pad))%nat.
Proof.
  destruct (integer_to_hex_shape var pad) as (D & -> & _ & Hlen & _).
  rewrite length_append, length_zeros. lia.
Qed.

Lemma integer_to_hex_length (var : N) (pad : nat) :
  (1 <= pad)%nat -> (var < 16 ^ N.of_nat pad)%N ->
  String.length (integer_to_hex var pad) = pad.
Proof.
  intros Hp Hv.
  destruct (integer_to_hex_shape var pad) as (D & -> & _ & Hlen & _ & Hmin).
  destruct pad as [|k]; [lia|]. specialize (Hmin k Hv).
  rewrite length_append, length_zeros. lia.
Qed.

(** [int(integer_to_hex(var, pad), 16) == var]. *)
Lemma int_integer_to_hex (var : N) (pad : nat) :
  Py.int (integer_to_hex var pad) 16 = Some var.
Proof.
  destruct (integer_to_hex_length_ge var pad) as [_ Hlen].
  unfold Py.int. destruct (integer_to_hex var pad) as [|c s] eqn:E; [simpl in Hlen; lia|].
  rewrite <- E.
  destruct (integer_to_hex_shape var pad) as (D & -> & _ & _ & Hint & _).
  rewrite int_digits_append, int_digits_zeros, Hint. reflexivity.
Qed.

Lemma hex_byte_int (s : string) :
  hex_byte s = true -> exists v, Py.int s 16 = Some v /\ (v < 256)%N.
Proof.
  destruct s as [|a [|b [|c s]]]; try discriminate. cbn [hex_byte]. intros H.
  apply andb_prop in H. destruct H as [Ha Hb].
  destruct (hexchar_digit a Ha) as (x & Ea & Hx).
  destruct (hexchar_digit b Hb) as (y & Eb & Hy).
  unfold Py.int. cbn [Py.int_digits]. rewrite Ea, Eb.
  pose proof Hx as Hx'. pose proof Hy as Hy'.
  apply N.ltb_lt in Hx', Hy'. rewrite Hx', Hy'.
  eexists. split; [reflexivity|]. lia.
Qed.

(** The two halves of a number below 65536 written on four digits. *)
Lemma integer_to_hex_halves (var : N) :
  (var < 65536)%N ->
  hex_byte (Py.take 2 (integer_to_hex var 4)) = true
  /\ hex_byte (Py.drop 2 (integer_to_hex var 4)) = true
  /\ Py.int (Py.take 2 (integer_to_hex var 4)) 16 = Some (var / 256)%N
  /\ Py.int (Py.drop 2 (integer_to_hex var 4)) 16 = Some (var mod 256)%N.
Proof.
  intros Hv.
  pose proof (integer_to_hex_length var 4 ltac:(lia) Hv) as Hlen.
  pose proof (integer_to_hex_hexchars var 4) as Hch.
  pose proof (int_integer_to_hex var 4) as Hint.
  destruct (integer_to_hex var 4) as [|a [|b [|c [|d [|e s]]]]]; try discriminate Hlen.
  simpl in Hch.
  apply andb_prop in Hch. destruct Hch as [Ha Hch].
  apply andb_prop in Hch. destruct Hch as [Hb Hch].
  apply andb_prop in Hch. destruct Hch as [Hc Hch].
  apply andb_prop in Hch. destruct Hch as [Hd _].
  cbn [Py.take Py.drop hex_byte]. rewrite Ha, Hb, Hc, Hd.
  destruct (hexchar_digit a Ha) as (x & Ex & Hx).
  destruct (hexchar_digit b Hb) as (y & Ey & Hy).
  destruct (hexchar_digit c Hc) as (z & Ez & Hz).
  destruct (hexchar_digit d Hd) as (w & Ew & Hw).
  pose proof Hx as Hx'. pose proof Hy as Hy'. pose proof Hz as Hz'. pose proof Hw as Hw'.
  apply N.ltb_lt in Hx', Hy', Hz', Hw'.
  unfold Py.int in Hint.
  rewrite int_digits_cons, Ex, Hx', int_digits_cons, Ey, Hy',
    int_digits_cons, Ez, Hz', int_digits_cons, Ew, Hw' in Hint.
  cbn [Py.int_digits] in Hint.
  assert (E : var = (16 * (16 * (16 * (16 * 0 + x) + y) + z) + w)%N) by congruence.
  clear Hint.
  unfold Py.int.
  rewrite int_digits_cons, Ex, Hx', int_digits_cons, Ey, Hy',
    int_digits_cons, Ez, Hz', int_digits_cons, Ew, Hw'.
  cbn [Py.int_digits].
  repeat split.
  - f_equal. apply (N.div_unique var 256 _ (16 * z + w)%N); lia.
  - f_equal. apply (N.mod_unique var 256 (16 * x + y)%N); lia.
Qed.

Lemma integer_to_hex_byte (var : N) :
  (var < 256)%N -> hex_byte (integer_to_hex var 2) = true.
Proof.
  intros Hv.
  pose proof (integer_to_hex_length var 2 ltac:(lia) Hv) as Hlen.
  pose proof (integer_to_hex_hexchars var 2) as Hch.
  destruct (integer_to_hex var 2) as [|a [|b [|c s]]]; try discriminate Hlen.
  simpl in Hch. simpl. rewrite andb_true_r in Hch. exact Hch.
Qed.

(** *** The size of a list of bytes in hexadecimal *)

Lemma fromhex_byte (x : string) :
  hex_byte x = true ->
  exists v, forall rest,
    Py.fromhex (Py.remove " " (x ++ rest)) =
    match Py.fromhex (Py.remove " " rest) with
    | Some bs => Some (v :: bs)
    | None => None
    end.
Proof.
  destruct x as [|a [|b [|c x]]]; try discriminate. cbn [hex_byte]. intros H.
  apply andb_prop in H. destruct H as [Ha Hb].
  destruct (hexchar_not_space a Ha) as [_ Ea].
  destruct (hexchar_not_space b Hb) as [_ Eb].
  pose proof (hexchar_not_space_bytes a Ha) as Sa.
  destruct (hexchar_digit a Ha) as (h & Eh & _).
  destruct (hexchar_digit b Hb) as (l & El & _).
  exists (16 * h + l)%N. intros rest.
  cbn [append Py.remove]. rewrite Ea, Eb. cbn [Py.fromhex]. rewrite Sa, Eh, El.
  reflexivity.
Qed.

Lemma fromhex_join (l : list string) :
  hex_bytes l ->
  exists bs, Py.fromhex (Py.remove " " (Py.join " " l)) = Some bs
             /\ List.length bs = List.length l.
Proof.
  induction 1 as [|x l Hx Hl IH].
  - exists []. split; reflexivity.
  - destruct IH as (bs & Ebs & Hlen).
    destruct (fromhex_byte x Hx) as (v & Hv).
    exists (v :: bs). split; [|simpl; rewrite Hlen; reflexivity].
    unfold Py.join in *. destruct l as [|y l].
    + cbn [String.concat]. rewrite <- (append_nil_r x), Hv. simpl in Hlen.
      destruct bs; [reflexivity | discriminate].
    + change (String.concat " " (x :: y :: l))
        with (x ++ String " " (String.concat " " (y :: l))).
      rewrite Hv. cbn [Py.remove]. cbn [Ascii.eqb Bool.eqb]. rewrite Ebs. reflexivity.
Qed.

Lemma get_basic_size_bytes (l : list string) (offset pad : nat) :
  hex_bytes l ->
  get_basic_size (Py.join " " l) offset pad =
  Some (integer_to_hex (N.of_nat (List.length l + offset)) pad).
Proof.
  intros H. unfold get_basic_size.
  destruct (fromhex_join l H) as (bs & -> & ->). reflexivity.
Qed.

(** *** The words of a line *)

Lemma lookup_hex_byte (word code : string) :
  lookup word mnemonic_index = Some code -> hex_byte code = true.
Proof.
  assert (G : forall table,
             forallb (fun kv => hex_byte (snd kv)) table = true ->
             lookup word table = Some code -> hex_byte code = true).
  { induction table as [|[k v] table IH]; simpl; [discriminate|].
    intros H. apply andb_prop in H. destruct H as [Hv Ht].
    destruct (String.eqb word k); [congruence | auto]. }
  apply G. reflexivity.
Qed.

Lemma letters_hex_bytes (word : string) : hex_bytes (letters word).
Proof.
  unfold letters. induction (list_ascii_of_string word) as [|c l IH]; constructor.
  - apply string_to_hex_byte.
  - exact IH.
Qed.

Lemma plain_word_hex_bytes (word : string) : hex_bytes (plain_word word).
Proof.
  unfold plain_word. destruct (lookup word mnemonic_index) as [code|] eqn:E.
  - constructor; [eapply lookup_hex_byte; exact E | constructor].
  - apply letters_hex_bytes.
Qed.

Lemma hex_bytes_app (a b : list string) :
  hex_bytes a -> hex_bytes b -> hex_bytes (a ++ b).
Proof. intros Ha Hb. apply Forall_app. split; assumption. Qed.

(** Away from the second word, or with the flag down, every letter is
    emitted. *)
Lemma encode_letters_plain (index : nat) (word : string) (hex : list string) (flag : bool) :
  (index =? 1)%nat && flag = false ->
  encode_letters index word hex flag = ((hex ++ letters word)%list, flag).
Proof.
  intros H. revert hex. induction word as [|c word IH]; intros hex.
  - simpl. rewrite app_nil_r. reflexivity.
  - cbn [encode_letters].
    replace ((index =? 1)%nat && (Py.ord c =? 32)%N && flag) with false
      by (destruct (index =? 1)%nat, flag, (Py.ord c =? 32)%N; simpl in *; congruence).
    rewrite IH. unfold letters. simpl. rewrite <- app_assoc. reflexivity.
Qed.

(** In the second word with the flag up, the first blank is dropped and the
    flag comes down. *)
Lemma encode_letters_elide (word : string) (hex : list string) :
  encode_letters 1 word hex true =
  ((hex ++ letters (without_first_blank word))%list, negb (has_blank word)).
Proof.
  revert hex. induction word as [|c word IH]; intros hex.
  - simpl. rewrite app_nil_r. reflexivity.
  - cbn [encode_letters without_first_blank]. unfold has_blank. cbn [Py.every].
    destruct (Py.ord c =? 32)%N; cbn [Nat.eqb andb negb].
    + rewrite encode_letters_plain by reflexivity. reflexivity.
    + rewrite IH. unfold letters, has_blank. simpl. rewrite <- app_assoc. reflexivity.
Qed.

Lemma encode_letters_hex_bytes (index : nat) (word : string) (hex : list string) (flag : bool) :
  hex_bytes hex -> hex_bytes (fst (encode_letters index word hex flag)).
Proof.
  revert hex flag. induction word as [|c word IH]; intros hex flag H; [exact H|].
  cbn [encode_letters].
  destruct ((index =? 1)%nat && (Py.ord c =? 32)%N && flag); apply IH; [exact H|].
  apply hex_bytes_app; [exact H|]. constructor; [apply string_to_hex_byte | constructor].
Qed.

(** One word that is no mnemonic: its letters are emitted and the length is
    set to the number of codes so far plus one. *)
Lemma encode_words_letters (index : nat) (word : string) (rest : list string) (st : line_state) :
  lookup word mnemonic_index = None ->
  hex_bytes (code_segment_hex st) ->
  encode_words index (word :: rest) st =
  encode_words (S index) rest
    {| code_segment_hex := fst (encode_letters index word (code_segment_hex st) (nospc st));
       nospc := snd (encode_letters index word (code_segment_hex st) (nospc st));
       basic_line_hex :=
         Some (integer_to_hex
                 (N.of_nat
                    (List.length
                       (fst (encode_letters index word (code_segment_hex st) (nospc st))) + 1))
                 2) |}.
Proof.
  intros Hl Hb. cbn [encode_words]. rewrite Hl.
  pose proof (encode_letters_hex_bytes index word (code_segment_hex st) (nospc st) Hb) as Hb'.
  destruct (encode_letters index word (code_segment_hex st) (nospc st)) as [hex flag].
  cbn [fst snd] in *. rewrite get_basic_size_bytes by exact Hb'. reflexivity.
Qed.

Lemma encode_words_mnemonic (index : nat) (word code : string) (rest : list string)
    (st : line_state) :
  lookup word mnemonic_index = Some code ->
  encode_words index (word :: rest) st =
  encode_words (S index) rest
    {| code_segment_hex := (code_segment_hex st ++ [code])%list;
       nospc := if (index =? 0)%nat then true else nospc st;
       basic_line_hex := basic_line_hex st |}.
Proof. intros Hl. cbn [encode_words]. rewrite Hl. reflexivity. Qed.

(** The loop never fails on bytes, and it leaves bytes. *)
Lemma encode_words_total (code_segment : list string) :
  forall (index : nat) (st : line_state),
    hex_bytes (code_segment_hex st) ->
    exists st', encode_words index code_segment st = Some st'
                /\ hex_bytes (code_segment_hex st').
Proof.
  induction code_segment as [|word rest IH]; intros index st Hb.
  - exists st. split; [reflexivity | exact Hb].
  - destruct (lookup word mnemonic_index) as [code|] eqn:E.
    + rewrite (encode_words_mnemonic index word code rest st E). apply IH. simpl.
      apply hex_bytes_app; [exact Hb|].
      constructor; [eapply lookup_hex_byte; exact E | constructor].
    + rewrite (encode_words_letters index word rest st E Hb). apply IH. simpl.
      apply encode_letters_hex_bytes. exact Hb.
Qed.

Lemma encode_words_app (ws1 ws2 : list string) :
  forall (index : nat) (st : line_state),
    encode_words index (ws1 ++ ws2) st =
    match encode_words index ws1 st with
    | Some st1 => encode_words (index + List.length ws1) ws2 st1
    | None => None
    end.
Proof.
  induction ws1 as [|word ws1 IH]; intros index st.
  - simpl. rewrite Nat.add_0_r. reflexivity.
  - cbn [app encode_words List.length].
    destruct (lookup word mnemonic_index) as [code|].
    + rewrite IH. rewrite Nat.add_succ_r. reflexivity.
    + destruct (encode_letters index word (code_segment_hex st) (nospc st)) as [hex flag].
      destruct (get_basic_size (Py.join " " hex) 1 2) as [size|]; [|reflexivity].
      rewrite IH. rewrite Nat.add_succ_r. reflexivity.
Qed.

(** From the second word on with the flag down, and from the third word on
    in any case, every word is emitted as it is. *)
Lemma encode_words_plain (code_segment : list string) :
  forall (index : nat) (st : line_state),
    (1 <= index)%nat -> (index =? 1)%nat && nospc st = false ->
    hex_bytes (code_segment_hex st) ->
    exists st', encode_words index code_segment st = Some st'
                /\ code_segment_hex st' =
                   (code_segment_hex st ++ flat_map plain_word code_segment)%list.
Proof.
  induction code_segment as [|word rest IH]; intros index st Hi Hf Hb.
  - exists st. split; [reflexivity|]. simpl. rewrite app_nil_r. reflexivity.
  - assert (Hn : (S index =? 1)%nat = false) by (apply Nat.eqb_neq; lia).
    cbn [flat_map]. unfold plain_word at 1.
    destruct (lookup word mnemonic_index) as [code|] eqn:E.
    + rewrite (encode_words_mnemonic index word code rest st E).
      edestruct (IH (S index)) as (st' & Est & Hst); [lia | | | ].
      3:{ exists st'. split; [exact Est|]. rewrite Hst. cbn [code_segment_hex].
          rewrite <- app_assoc. reflexivity. }
      * cbn [nospc]. rewrite Hn. reflexivity.
      * cbn [code_segment_hex]. apply hex_bytes_app; [exact Hb|].
        constructor; [eapply lookup_hex_byte; exact E | constructor].
    + rewrite (encode_words_letters index word rest st E Hb).
      rewrite (encode_letters_plain index word _ _ Hf). cbn [fst snd].
      edestruct (IH (S index)) as (st' & Est & Hst); [lia | | | ].
      3:{ exists st'. split; [exact Est|]. rewrite Hst. cbn [code_segment_hex].
          rewrite <- app_assoc. reflexivity. }
      * cbn [nospc]. rewrite Hn. reflexivity.
      * cbn [code_segment_hex]. apply hex_bytes_app; [exact Hb | apply letters_hex_bytes].
Qed.

(** The codes of a line, word by word. *)
Lemma encode_words_first (w0 w1 : string) (rest : list string) :
  exists st,
    encode_words 0 (w0 :: w1 :: rest) start_state = Some st
    /\ code_segment_hex st =
       match lookup w0 mnemonic_index with
       | Some code => (code :: second_word w1 ++ flat_map plain_word rest)%list
       | None => flat_map plain_word (w0 :: w1 :: rest)
       end.
Proof.
  destruct (lookup w0 mnemonic_index) as [code|] eqn:E0.
  - rewrite (encode_words_mnemonic 0 w0 code _ _ E0). cbn [Nat.eqb start_state code_segment_hex app].
    assert (Hc : hex_bytes [code])
      by (constructor; [eapply lookup_hex_byte; exact E0 | constructor]).
    unfold second_word. destruct (lookup w1 mnemonic_index) as [c1|] eqn:E1.
    + rewrite (encode_words_mnemonic 1 w1 c1 _ _ E1). cbn [Nat.eqb nospc code_segment_hex app].
      edestruct (encode_words_plain rest 2) as (st & Est & Hst); [lia | reflexivity | | ].
      2:{ exists st. split; [exact Est|]. rewrite Hst. reflexivity. }
      cbn [code_segment_hex]. constructor; [eapply lookup_hex_byte; exact E0|].
      constructor; [eapply lookup_hex_byte; exact E1 | constructor].
    + rewrite (encode_words_letters 1 w1 _ _ E1) by exact Hc.
      cbn [nospc code_segment_hex]. rewrite encode_letters_elide. cbn [fst snd].
      edestruct (encode_words_plain rest 2) as (st & Est & Hst); [lia | reflexivity | | ].
      2:{ exists st. split; [exact Est|]. rewrite Hst. reflexivity. }
      cbn [code_segment_hex]. apply hex_bytes_app; [exact Hc | apply letters_hex_bytes].
  - rewrite (encode_words_letters 0 w0 _ _ E0) by constructor.
    rewrite (encode_letters_plain 0 w0 _ _ eq_refl). cbn [fst snd start_state code_segment_hex nospc app].
    match goal with
    | |- context [encode_words 1 _ ?s] =>
        destruct (encode_words_plain (w1 :: rest) 1 s) as (st & Est & Hst);
          [lia | reflexivity | apply letters_hex_bytes | ]
    end.
    exists st. split; [exact Est|]. rewrite Hst. cbn [code_segment_hex flat_map].
    unfold plain_word at 3. rewrite E0. reflexivity.
Qed.

(** C8: when the first word of a line is a mnemonic, the codes of the line
    are the mnemonic's code, then the second word without its first blank (or
    its own code if it is a mnemonic), then every later word as it is, blanks
    included; so a second word that is one blank is dropped whole and nothing
    else is.  When the first word is no mnemonic every word is emitted as it
    is and no blank is dropped. *)
Theorem first_mnemonic_drops_one_blank (w0 w1 : string) (rest : list string) :
  exists st,
    encode_words 0 (w0 :: w1 :: rest) start_state = Some st
    /\ match lookup w0 mnemonic_index with
       | Some code =>
           code_segment_hex st =
             (code :: second_word w1 ++ flat_map plain_word rest)%list
           /\ (w1 = " " -> code_segment_hex st = code :: flat_map plain_word rest)
           /\ (List.length (flat_map plain_word (w0 :: w1 :: rest))
               <= S (List.length (code_segment_hex st)))%nat
       | None =>
           code_segment_hex st = flat_map plain_word (w0 :: w1 :: rest)
       end.
Proof.
  destruct (encode_words_first w0 w1 rest) as (st & Est & Hst).
  exists st. split; [exact Est|].
  destruct (lookup w0 mnemonic_index) as [code|] eqn:E0; [|exact Hst].
  split; [exact Hst|]. split.
  - intros ->. rewrite Hst. reflexivity.
  - rewrite Hst. cbn [flat_map List.length]. unfold plain_word at 1. rewrite E0.
    cbn [app List.length]. rewrite !length_app.
    assert (List.length (plain_word w1) <= S (List.length (second_word w1)))%nat; [|lia].
    unfold plain_word, second_word. destruct (lookup w1 mnemonic_index); [simpl; lia|].
    unfold letters. rewrite !length_map.
    clear. induction w1 as [|c w IH]; simpl; [lia|].
    destruct (Py.ord c =? 32)%N; simpl; lia.
Qed.

(** *** The lines of a file *)

Lemma encode_letters_return (index : nat) (hex : list string) (flag : bool) :
  encode_letters index (String "013" "") hex flag = ((hex ++ ["0D"])%list, flag).
Proof.
  cbn [encode_letters].
  replace ((index =? 1)%nat && (Py.ord "013" =? 32)%N && flag) with false
    by (change (Py.ord "013" =? 32)%N with false; rewrite andb_false_r; reflexivity).
  reflexivity.
Qed.

Lemma encode_words_line (code : string) :
  exists body st,
    encode_words 0 (Py.split_spaces code ++ [String "013" ""]) start_state = Some st
    /\ code_segment_hex st = (body ++ ["0D"])%list
    /\ hex_bytes (code_segment_hex st)
    /\ basic_line_hex st =
       Some (integer_to_hex (N.of_nat (List.length (code_segment_hex st) + 1)) 2).
Proof.
  rewrite encode_words_app.
  destruct (encode_words_total (Py.split_spaces code) 0 start_state) as (st1 & -> & Hb1);
    [constructor|].
  rewrite (encode_words_letters _ (String "013" "") [] st1 eq_refl Hb1).
  rewrite encode_letters_return. cbn [fst snd encode_words].
  eexists. eexists. split; [reflexivity|]. cbn [code_segment_hex basic_line_hex].
  split; [reflexivity|]. split; [|reflexivity].
  apply hex_bytes_app; [exact Hb1 | constructor; [reflexivity | constructor]].
Qed.

Lemma code_bytes_spec (code : string) :
  hex_bytes (code_bytes code) /\ exists body, code_bytes code = (body ++ ["0D"])%list.
Proof.
  unfold code_bytes.
  destruct (encode_words_line code) as (body & st & -> & Hst & Hb & _).
  split; [exact Hb | exists body; exact Hst].
Qed.

Lemma encode_line_token_stream (label : N) (code : string) :
  encode_line label code = Some (token_stream (label, code)).
Proof.
  unfold encode_line, token_stream, code_bytes.
  destruct (encode_words_line code) as (body & st & -> & _ & _ & ->). reflexivity.
Qed.

Lemma encode_lines_token_streams (text_segment : list string) :
  forall code_array,
    encode_lines text_segment code_array =
    Some (code_array ++ flat_map token_stream (accepted_lines text_segment))%list.
Proof.
  induction text_segment as [|line rest IH]; intros code_array.
  - simpl. rewrite app_nil_r. reflexivity.
  - cbn [encode_lines accepted_lines flat_map].
    destruct (Extract_Number_String line) as [[label|] code].
    + rewrite encode_line_token_stream, IH. cbn [app flat_map].
      rewrite <- app_assoc. reflexivity.
    + rewrite IH. reflexivity.
Qed.

(** C1, as stated, fails: the length byte of the line [10 END] is 03, not 02. *)
Lemma ten_END_length_is_not_2 :
  option_map (skipn 10) (Create_HexData "10 END") <> Some ["00"; "0A"; "02"; "94"; "0D"].
Proof. vm_compute. discriminate. Qed.

(** C1, amended: for the file whose only line is [10 END] the bytes of the
    line are 00 0A 03 94 0D: the label 10 on two bytes, high byte first, the
    length byte 03, which counts the code 94 of END, the carriage return 0D
    and itself, then 94 and 0D.  They follow the ten bytes of the header, of
    which the sum is 00 BD and the length 00 0F. *)
Theorem ten_END_block :
  Extract_Number_String "10 END" = (Some 10%N, "END")
  /\ lookup "END" mnemonic_index = Some "94"
  /\ encode_line 10 "END" = Some ["00"; "0A"; "03"; "94"; "0D"]
  /\ Create_HexData "10 END" =
       Some ["00"; "BD"; "00"; "0F"; "00"; "00"; "00"; "00"; "00"; "00";
             "00"; "0A"; "03"; "94"; "0D"]
  /\ Create_BinData "10 END" =
       Some ["00000000"; "10111101"; "00000000"; "00001111"; "00000000";
             "00000000"; "00000000"; "00000000"; "00000000"; "00000000";
             "00000000"; "00001010"; "00000011"; "10010100"; "00001101"].
Proof. conjuncts; vm_compute; reflexivity. Qed.

(** C2, as stated, fails: the line [10 END] has two code bytes, 94 and the
    carriage return 0D, and its length byte is 03. *)
Lemma length_byte_is_not_the_code_count :
  Extract_Number_String "10 END" = (Some 10%N, "END")
  /\ encode_line 10 "END" = Some (["00"; "0A"; "03"] ++ ["94"; "0D"])%list
  /\ Py.int "03" 16 <> Some (N.of_nat (List.length ["94"; "0D"])).
Proof. conjuncts; vm_compute; first [reflexivity | discriminate]. Qed.

(** C2, amended: for every line that has a label, the bytes of the line are
    the two label bytes, the length and the code bytes, which end with the
    carriage return; the length is the number of code bytes, carriage return
    included, plus one, and it is one byte when that number is below 256. *)
Theorem line_length_counts_itself (line : string) (label : N) (code : string) :
  Py.isascii line = true ->
  Extract_Number_String line = (Some label, code) ->
  exists label_hex1 label_hex2 line_length body,
    encode_line label code =
      Some (label_hex1 :: label_hex2 :: line_length :: body ++ ["0D"])%list
    /\ code_bytes code = (body ++ ["0D"])%list
    /\ Py.int line_length 16 = Some (N.of_nat (List.length (body ++ ["0D"])%list + 1))
    /\ ((List.length (body ++ ["0D"])%list + 1 < 256)%nat -> hex_byte line_length = true).
Proof.
  intros _ _.
  destruct (code_bytes_spec code) as (_ & body & Hbody).
  exists (Py.take 2 (integer_to_hex label 4)), (Py.drop 2 (integer_to_hex label 4)),
    (integer_to_hex (N.of_nat (List.length (code_bytes code) + 1)) 2), body.
  split; [|split; [exact Hbody | split]].
  - rewrite encode_line_token_stream. unfold token_stream. rewrite Hbody. reflexivity.
  - rewrite <- Hbody. apply int_integer_to_hex.
  - intros H. rewrite <- Hbody in H. apply integer_to_hex_byte. lia.
Qed.

Lemma line_length_counts_itself_witness :
  exists label_hex1 label_hex2 line_length body,
    encode_line 20 "GOTO 10" =
      Some (label_hex1 :: label_hex2 :: line_length :: body ++ ["0D"])%list
    /\ code_bytes "GOTO 10" = (body ++ ["0D"])%list
    /\ Py.int line_length 16 = Some (N.of_nat (List.length (body ++ ["0D"])%list + 1))
    /\ ((List.length (body ++ ["0D"])%list + 1 < 256)%nat -> hex_byte line_length = true).
Proof.
  apply (line_length_counts_itself "20 goto 10" 20 "GOTO 10"); reflexivity.
Defined.

(** *** The block *)

Lemma token_stream_hex_bytes (line : N * string) :
  line_fits line = true -> hex_bytes (token_stream line).
Proof.
  destruct line as [label code]. unfold line_fits, token_stream. intros H.
  apply andb_prop in H. destruct H as [Hl Hc].
  apply N.ltb_lt in Hl. apply N.ltb_lt in Hc.
  destruct (integer_to_hex_halves label Hl) as (H1 & H2 & _).
  destruct (code_bytes_spec code) as [Hb _].
  repeat constructor; try assumption.
  apply integer_to_hex_byte. exact Hc.
Qed.

Lemma token_streams_hex_bytes (lines : list (N * string)) :
  forallb line_fits lines = true -> hex_bytes (flat_map token_stream lines).
Proof.
  induction lines as [|line lines IH]; simpl; intros H; [constructor|].
  apply andb_prop in H. destruct H as [Hl Hr].
  apply hex_bytes_app; [apply token_stream_hex_bytes; exact Hl | apply IH; exact Hr].
Qed.

Lemma sum_hex_total (hex_array : list string) :
  hex_bytes hex_array -> forall total_sum, exists t, sum_hex hex_array total_sum = Some t.
Proof.
  induction 1 as [|x l Hx Hl IH]; intros a.
  - exists a. reflexivity.
  - cbn [sum_hex]. destruct (hex_byte_int x Hx) as (v & -> & _). apply IH.
Qed.

Lemma hex_to_binary_total (hex_array : list string) (pad : nat) :
  hex_bytes hex_array ->
  exists b, hex_to_binary hex_array pad = Some b /\ List.length b = List.length hex_array.
Proof.
  induction 1 as [|x l Hx Hl IH].
  - exists []. split; reflexivity.
  - cbn [hex_to_binary]. destruct (hex_byte_int x Hx) as (v & -> & _).
    destruct IH as (b & -> & Hlen). eexists. split; [reflexivity|].
    simpl. rewrite Hlen. reflexivity.
Qed.

Lemma every_take (p : ascii -> bool) (n : nat) (s : string) :
  Py.every p s = true -> Py.every p (Py.take n s) = true.
Proof.
  revert s. induction n as [|k IH]; intros [|c s]; simpl; auto.
  intros H. apply andb_prop in H. destruct H as [Hc Hs]. rewrite Hc, (IH s Hs). reflexivity.
Qed.

Lemma every_drop (p : ascii -> bool) (n : nat) (s : string) :
  Py.every p s = true -> Py.every p (Py.drop n s) = true.
Proof.
  revert s. induction n as [|k IH]; intros [|c s]; simpl; auto.
  intros H. apply andb_prop in H. destruct H as [Hc Hs]. apply IH. exact Hs.
Qed.

Lemma int_hexchars (s : string) :
  Py.every hexchar s = true -> (1 <= String.length s)%nat ->
  exists v, Py.int s 16 = Some v.
Proof.
  intros H Hlen. unfold Py.int. destruct s as [|c s]; [simpl in Hlen; lia|].
  generalize (String c s) H 0%N. clear.
  induction s as [|c s IH]; intros Hs a.
  - exists a. reflexivity.
  - simpl in Hs. apply andb_prop in Hs. destruct Hs as [Hc Hs].
    destruct (hexchar_digit c Hc) as (d & Ed & Hd).
    rewrite int_digits_cons, Ed. apply N.ltb_lt in Hd. rewrite Hd. apply IH. exact Hs.
Qed.

(** The two halves of a number written on four digits or more can be read. *)
Lemma int_halves (var : N) :
  (exists v, Py.int (Py.take 2 (integer_to_hex var 4)) 16 = Some v)
  /\ (exists v, Py.int (Py.drop 2 (integer_to_hex var 4)) 16 = Some v).
Proof.
  pose proof (integer_to_hex_hexchars var 4) as Hch.
  destruct (integer_to_hex_length_ge var 4) as [Hlen _].
  split; apply int_hexchars.
  - apply every_take. exact Hch.
  - destruct (integer_to_hex var 4) as [|a [|b s]]; simpl in *; lia.
  - apply every_drop. exact Hch.
  - destruct (integer_to_hex var 4) as [|a [|b [|c s]]]; simpl in *; lia.
Qed.

Lemma int_binary_string (v : N) :
  (v < 256)%N -> Py.int (binary_string v 8) 2 = Some v.
Proof.
  intros H.
  pose proof (below_spec 256
                (fun v => match Py.int (binary_string v 8) 2 with
                          | Some w => (w =? v)%N
                          | None => false
                          end) eq_refl v H) as E.
  cbv beta in E. destruct (Py.int (binary_string v 8) 2); [|discriminate].
  apply N.eqb_eq in E. congruence.
Qed.

(** The block of a file that fits. *)
Lemma Create_BinData_fits (text_content : string) :
  block_fits text_content = true ->
  let code_array := flat_map token_stream (accepted_lines (Py.split "010" text_content)) in
  let size := N.of_nat (List.length code_array + 10) in
  exists total1 total2 rest,
    Create_BinData text_content =
      Some (total1 :: total2 :: binary_string (size / 256) 8
            :: binary_string (size mod 256) 8 :: rest)
    /\ List.length rest = (6 + List.length code_array)%nat.
Proof.
  intros H code_array size. unfold block_fits in H.
  apply andb_prop in H. destruct H as [Hlines Hsize].
  apply N.ltb_lt in Hsize. fold code_array in Hsize.
  pose proof (token_streams_hex_bytes _ Hlines) as Hb. fold code_array in Hb.
  assert (Hs : (size < 65536)%N) by exact Hsize.
  destruct (integer_to_hex_halves size Hs) as (H1 & H2 & I1 & I2).
  unfold Create_BinData, Create_HexData.
  rewrite encode_lines_token_streams. cbn [app]. fold code_array.
  rewrite get_basic_size_bytes by exact Hb. fold size.
  assert (Hrest : hex_bytes (repeat (integer_to_hex 0 2) 6 ++ code_array)).
  { apply hex_bytes_app; [|exact Hb]. repeat constructor. }
  assert (Hfinal : hex_bytes (Py.take 2 (integer_to_hex size 4)
                              :: Py.drop 2 (integer_to_hex size 4)
                              :: repeat (integer_to_hex 0 2) 6 ++ code_array)).
  { constructor; [exact H1|]. constructor; [exact H2 | exact Hrest]. }
  destruct (sum_hex_total _ Hfinal 0%N) as (total & ->).
  destruct (int_halves total) as [(v1 & E1) (v2 & E2)].
  cbn [hex_to_binary]. rewrite E1, E2, I1, I2.
  destruct (hex_to_binary_total _ 8 Hrest) as (rest & Erest & Hlen).
  rewrite Erest. do 3 eexists. split; [reflexivity|].
  rewrite Hlen, length_app. reflexivity.
Qed.

(** C3, as stated, fails: the block of the file [10 END] has 15 bytes, and
    its length bytes 00 0F say 15, not 13. *)
Lemma block_length_is_not_the_field_plus_2 :
  exists block,
    Create_BinData "10 END" = Some block
    /\ nth_error block 2 = Some "00000000"
    /\ nth_error block 3 = Some "00001111"
    /\ Py.int "00000000" 2 = Some 0%N
    /\ Py.int "00001111" 2 = Some 15%N
    /\ N.of_nat (List.length block) <> (256 * 0 + 15 + 2)%N.
Proof.
  eexists. split; [vm_compute; reflexivity|].
  conjuncts; vm_compute; first [reflexivity | discriminate].
Qed.

(** C3, amended: for every file whose labels are below 65536, whose lines
    have a one-byte length and whose block is shorter than 65536 bytes, the
    block is made and its number of bytes is the 16-bit value of its two
    length bytes, high byte first: the length counts the whole block, the two
    checksum bytes included. *)
Theorem block_length_is_the_field (text_content : string) :
  Py.isascii text_content = true ->
  block_fits text_content = true ->
  exists block high low h l,
    Create_BinData text_content = Some block
    /\ nth_error block 2 = Some high
    /\ nth_error block 3 = Some low
    /\ Py.int high 2 = Some h /\ (h < 256)%N
    /\ Py.int low 2 = Some l /\ (l < 256)%N
    /\ N.of_nat (List.length block) = (256 * h + l)%N.
Proof.
  intros _ H.
  destruct (Create_BinData_fits text_content H) as (t1 & t2 & rest & E & Hlen).
  set (size := N.of_nat
                 (List.length
                    (flat_map token_stream (accepted_lines (Py.split "010" text_content)))
                  + 10)) in *.
  assert (Hs : (size < 65536)%N).
  { unfold block_fits in H. apply andb_prop in H. destruct H as [_ H].
    apply N.ltb_lt in H. exact H. }
  assert (Hh : (size / 256 < 256)%N) by (apply N.Div0.div_lt_upper_bound; exact Hs).
  assert (Hl : (size mod 256 < 256)%N) by (apply N.mod_lt; lia).
  exists (t1 :: t2 :: binary_string (size / 256) 8 :: binary_string (size mod 256) 8 :: rest),
    (binary_string (size / 256) 8), (binary_string (size mod 256) 8),
    (size / 256)%N, (size mod 256)%N.
  split; [exact E|]. split; [reflexivity|]. split; [reflexivity|].
  split; [apply int_binary_string; exact Hh|]. split; [exact Hh|].
  split; [apply int_binary_string; exact Hl|]. split; [exact Hl|].
  cbn [List.length]. rewrite Hlen, <- N.div_mod' . subst size. lia.
Qed.

Lemma block_length_is_the_field_witness :
  exists block high low h l,
    Create_BinData "20 GOTO 10" = Some block
    /\ nth_error block 2 = Some high
    /\ nth_error block 3 = Some low
    /\ Py.int high 2 = Some h /\ (h < 256)%N
    /\ Py.int low 2 = Some l /\ (l < 256)%N
    /\ N.of_nat (List.length block) = (256 * h + l)%N.
Proof.
  apply (block_length_is_the_field "20 GOTO 10"); vm_compute; reflexivity.
Defined.

(** C4: the code at a file of three remarks of 250 letters.  The bytes after
    the checksum sum to 68758, which is 0x10C96; the block starts with 10 and
    C96 where the sum modulo 65536 is 0C 96, and the second of them goes to
    the modulator as a string of twelve bits. *)
Theorem checksum_does_not_wrap :
  block_fits three_remarks = true
  /\ option_map (firstn 4) (Create_HexData three_remarks) = Some ["10"; "C96"; "03"; "07"]
  /\ option_map (fun block => sum_hex (skipn 2 block) 0) (Create_HexData three_remarks)
     = Some (Some 68758%N)
  /\ integer_to_hex (68758 mod 65536) 4 = "0C96"
  /\ option_map (firstn 2) (Create_BinData three_remarks)
     = Some ["00010000"; "110010010110"].
Proof. conjuncts; vm_compute; reflexivity. Qed.

(** *** Lines without a label *)

Lemma upper_char_isdigit (c : ascii) : Py.isdigit (Py.upper_char c) = Py.isdigit c.
Proof. each_char c; vm_compute; reflexivity. Qed.

Lemma Extract_Number_String_no_label (line : string) :
  no_label line = true -> Extract_Number_String line = (None, Py.upper line).
Proof.
  unfold Extract_Number_String, Py.match_number. destruct line as [|c line]; [reflexivity|].
  cbn [no_label Py.upper Py.span]. rewrite upper_char_isdigit. intros H.
  apply negb_true_iff in H. rewrite H. reflexivity.
Qed.

Lemma accepted_lines_app (a b : list string) :
  accepted_lines (a ++ b) = (accepted_lines a ++ accepted_lines b)%list.
Proof. apply flat_map_app. Qed.

Lemma accepted_lines_skip (before after : list string) (line : string) :
  no_label line = true ->
  accepted_lines (before ++ line :: after) = accepted_lines (before ++ after).
Proof.
  intros H. rewrite !accepted_lines_app. f_equal.
  unfold accepted_lines at 1. cbn [flat_map].
  rewrite (Extract_Number_String_no_label line H). reflexivity.
Qed.

Lemma split_one_line (line : string) :
  one_line line = true -> Py.split "010" line = [line].
Proof.
  unfold one_line. induction line as [|c line IH]; [reflexivity|].
  cbn [Py.every Py.split]. intros H. apply andb_prop in H. destruct H as [Hc Hl].
  apply negb_true_iff in Hc. rewrite Hc, (IH Hl). reflexivity.
Qed.

Lemma split_line_feed (line rest : string) :
  one_line line = true ->
  Py.split "010" (line ++ String "010" rest) = line :: Py.split "010" rest.
Proof.
  unfold one_line. induction line as [|c line IH]; [reflexivity|].
  cbn [Py.every Py.split append]. intros H. apply andb_prop in H. destruct H as [Hc Hl].
  apply negb_true_iff in Hc. rewrite Hc, (IH Hl). reflexivity.
Qed.

(** Splitting the lines of a file gives the lines back; the empty file has
    one empty line. *)
Lemma split_join (lines : list string) :
  forallb one_line lines = true ->
  Py.split "010" (Py.join (String "010" "") lines) =
  match lines with
  | [] => [""]
  | _ => lines
  end.
Proof.
  unfold Py.join. induction lines as [|x lines IH]; [reflexivity|].
  cbn [forallb]. intros H. apply andb_prop in H. destruct H as [Hx Hl].
  destruct lines as [|y lines].
  - cbn [String.concat]. apply split_one_line. exact Hx.
  - change (String.concat (String "010" "") (x :: y :: lines))
      with (x ++ String "010" (String.concat (String "010" "") (y :: lines))).
    rewrite (split_line_feed x _ Hx), (IH Hl). reflexivity.
Qed.

Lemma encode_lines_join (lines : list string) :
  forallb one_line lines = true ->
  encode_lines (Py.split "010" (Py.join (String "010" "") lines)) [] =
  encode_lines lines [].
Proof.
  intros H. rewrite (split_join lines H). destruct lines; reflexivity.
Qed.

(** The block depends on the file through the bytes of its lines. *)
Lemma Create_HexData_lines (text text' : string) :
  encode_lines (Py.split "010" text) [] = encode_lines (Py.split "010" text') [] ->
  Create_HexData text = Create_HexData text'.
Proof. intros H. unfold Create_HexData. rewrite H. reflexivity. Qed.

(** C9: a line that does not start with a digit adds no byte and raises no
    error: the loop over the lines goes on to the next line with the bytes it
    had, and the block of the file is the block of the file without that
    line, whatever lines come before and after it. *)
Theorem line_without_label_is_skipped (before after : list string) (line : string) :
  Py.isascii (Py.join (String "010" "") (before ++ line :: after)) = true ->
  forallb one_line (before ++ line :: after) = true ->
  no_label line = true ->
  (forall rest code_array,
     encode_lines (line :: rest) code_array = encode_lines rest code_array)
  /\ Create_HexData (Py.join (String "010" "") (before ++ line :: after)) =
     Create_HexData (Py.join (String "010" "") (before ++ after))
  /\ Create_BinData (Py.join (String "010" "") (before ++ line :: after)) =
     Create_BinData (Py.join (String "010" "") (before ++ after)).
Proof.
  intros _ Hlines Hline.
  assert (Hlines' : forallb one_line (before ++ after) = true).
  { rewrite forallb_app in *. cbn [forallb] in Hlines.
    apply andb_prop in Hlines. destruct Hlines as [Hb Ha].
    apply andb_prop in Ha. destruct Ha as [_ Ha]. rewrite Hb, Ha. reflexivity. }
  assert (E : Create_HexData (Py.join (String "010" "") (before ++ line :: after)) =
              Create_HexData (Py.join (String "010" "") (before ++ after))).
  { apply Create_HexData_lines.
    rewrite (encode_lines_join _ Hlines), (encode_lines_join _ Hlines').
    rewrite !encode_lines_token_streams, (accepted_lines_skip _ _ _ Hline). reflexivity. }
  split; [|split].
  - intros rest code_array. cbn [encode_lines].
    rewrite (Extract_Number_String_no_label line Hline). reflexivity.
  - exact E.
  - unfold Create_BinData. rewrite E. reflexivity.
Qed.

Lemma line_without_label_is_skipped_witness :
  (forall rest code_array,
     encode_lines ("REM no number" :: rest) code_array = encode_lines rest code_array)
  /\ Create_HexData (Py.join (String "010" "")
                       (["20 GOTO 10"] ++ "REM no number" :: ["10 PRINT 1"])) =
     Create_HexData (Py.join (String "010" "") (["20 GOTO 10"] ++ ["10 PRINT 1"]))
  /\ Create_BinData (Py.join (String "010" "")
                       (["20 GOTO 10"] ++ "REM no number" :: ["10 PRINT 1"])) =
     Create_BinData (Py.join (String "010" "") (["20 GOTO 10"] ++ ["10 PRINT 1"])).
Proof.
  apply (line_without_label_is_skipped ["20 GOTO 10"] ["10 PRINT 1"] "REM no number");
    reflexivity.
Defined.

(** *** Upper case *)


Lemma upper_is_upper (s : string) : Py.every is_upper (Py.upper s) = true.
Proof.
  induction s as [|c s IH]; simpl; [reflexivity|].
  unfold is_upper at 1. rewrite upper_char_idem, Ascii.eqb_refl. exact IH.
Qed.

Lemma is_upper_fixed (s : string) : Py.every is_upper s = true -> Py.upper s = s.
Proof.
  induction s as [|c s IH]; simpl; [reflexivity|].
  intros H. apply andb_prop in H. destruct H as [Hc Hs].
  apply Ascii.eqb_eq in Hc. rewrite Hc, (IH Hs). reflexivity.
Qed.




Lemma every_span (p q : ascii -> bool) (s : string) :
  Py.every p s = true ->
  Py.every p (fst (Py.span q s)) = true /\ Py.every p (snd (Py.span q s)) = true.
Proof.
  induction s as [|c s IH]; [split; reflexivity|].
  cbn [Py.every Py.span]. intros H. pose proof H as H'.
  apply andb_prop in H. destruct H as [Hc Hs].
  destruct (q c); [|split; [reflexivity | exact H']].
  destruct (IH Hs) as [H1 H2]. destruct (Py.span q s) as [a b].
  cbn [fst snd Py.every] in *. rewrite Hc, H1, H2. split; reflexivity.
Qed.

Lemma every_lstrip (p : ascii -> bool) (s : string) :
  Py.every p s = true -> Py.every p (Py.lstrip s) = true.
Proof.
  induction s as [|c s IH]; [reflexivity|].
  cbn [Py.lstrip]. intros H. destruct (Py.isspace c); [|exact H].
  cbn [Py.every] in H. apply andb_prop in H. destruct H as [_ Hs]. apply IH. exact Hs.
Qed.

(** The code of a line, as [Extract_Number_String] returns it, is in upper
    case. *)
Lemma code_is_upper (line : string) (label : option N) (code : string) :
  Extract_Number_String line = (label, code) -> Py.every is_upper code = true.
Proof.
  unfold Extract_Number_String, Py.match_number.
  pose proof (upper_is_upper line) as H.
  destruct (every_span is_upper Py.isdigit _ H) as [_ H2].
  destruct (Py.span Py.isdigit (Py.upper line)) as [number_str rest]. cbn [snd] in H2.
  destruct (every_span is_upper (fun c => negb (Ascii.eqb c "010")) _ H2) as [H3 _].
  destruct number_str; intros E; inversion E; subst; [exact H|].
  apply every_lstrip. exact H3.
Qed.

Lemma every_split_from (p : ascii -> bool) (s : string) :
  forall (in_run : bool) (cur : string),
    Py.every p cur = true -> Py.every p s = true ->
    Forall (fun w => Py.every p w = true) (Py.split_from in_run cur s).
Proof.
  induction s as [|c s IH]; intros in_run cur Hcur Hs.
  - cbn [Py.split_from]. destruct in_run; repeat constructor; exact Hcur.
  - cbn [Py.split_from Py.every] in *. apply andb_prop in Hs. destruct Hs as [Hc Hs].
    destruct (Bool.eqb (Py.isspace c) in_run).
    + apply IH; [|exact Hs]. rewrite every_append, Hcur. simpl. rewrite Hc. reflexivity.
    + constructor; [exact Hcur|]. apply IH; [|exact Hs]. simpl. rewrite Hc. reflexivity.
Qed.

Lemma lookup_in (word code : string) (table : list (string * string)) :
  lookup word table = Some code -> In code (map snd table).
Proof.
  induction table as [|[k v] table IH]; simpl; [discriminate|].
  destruct (String.eqb word k); intros H; [left; congruence | right; auto].
Qed.

Lemma encode_letters_code_of (p : ascii -> bool) (index : nat) (word : string) :
  Py.every p word = true ->
  forall (hex : list string) (flag : bool),
    Forall (code_of p) hex ->
    Forall (code_of p) (fst (encode_letters index word hex flag)).
Proof.
  induction word as [|c word IH]; intros Hw hex flag Hhex; [exact Hhex|].
  cbn [Py.every] in Hw. apply andb_prop in Hw. destruct Hw as [Hc Hw].
  cbn [encode_letters].
  destruct ((index =? 1)%nat && (Py.ord c =? 32)%N && flag); apply IH; try assumption.
  apply Forall_app. split; [exact Hhex|].
  constructor; [|constructor]. right. exists c. split; [exact Hc | reflexivity].
Qed.

Lemma encode_words_code_of (p : ascii -> bool) (code_segment : list string) :
  Forall (fun w => Py.every p w = true) code_segment ->
  forall (index : nat) (st st' : line_state),
    Forall (code_of p) (code_segment_hex st) ->
    encode_words index code_segment st = Some st' ->
    Forall (code_of p) (code_segment_hex st').
Proof.
  induction 1 as [|word rest Hw Hrest IH]; intros index st st' Hst E.
  - cbn [encode_words] in E. congruence.
  - cbn [encode_words] in E.
    destruct (lookup word mnemonic_index) as [code|] eqn:El.
    + eapply IH; [|exact E]. cbn [code_segment_hex].
      apply Forall_app. split; [exact Hst|].
      constructor; [|constructor]. left. eapply lookup_in. exact El.
    + pose proof (encode_letters_code_of p index word Hw (code_segment_hex st) (nospc st) Hst)
        as Hl.
      destruct (encode_letters index word (code_segment_hex st) (nospc st)) as [hex flag].
      destruct (get_basic_size (Py.join " " hex) 1 2); [|discriminate].
      eapply IH; [|exact E]. exact Hl.
Qed.

Lemma code_bytes_code_of (p : ascii -> bool) (code : string) :
  Py.every p code = true -> p "013"%char = true ->
  Forall (code_of p) (code_bytes code).
Proof.
  intros Hc Hr. unfold code_bytes.
  destruct (encode_words 0 _ start_state) as [st|] eqn:E; [|constructor].
  refine (encode_words_code_of p _ _ 0 start_state st _ E); [|constructor].
  apply Forall_app. split.
  - apply every_split_from; [reflexivity | exact Hc].
  - constructor; [|constructor]. simpl. rewrite Hr. reflexivity.
Qed.


(** ** More of the program *)

(** *** Numbers in hexadecimal, both ways *)

Lemma string_pairs (P : string -> Prop) :
  P "" -> (forall c, P (String c "")) ->
  (forall a b s, P s -> P (String a (String b s))) ->
  forall s, P s.
Proof.
  intros H0 H1 H2 s.
  assert (G : P s /\ forall c, P (String c s)).
  { induction s as [|x s [IH1 IH2]]; [split; [exact H0 | exact H1]|].
    split; [apply IH2|]. intros c. apply H2. exact IH1. }
  exact (proj1 G).
Qed.

Lemma hexchar_upper_digit (c : ascii) :
  hexchar c = true -> hex_upper_digit (Py.upper_char c) = true.
Proof. each_char c; vm_compute; intros H; try discriminate H; reflexivity. Qed.

Lemma every_upper_digit (s : string) :
  Py.every hexchar s = true -> Py.every hex_upper_digit (Py.upper s) = true.
Proof.
  induction s as [|c s IH]; simpl; [reflexivity|].
  intros H. apply andb_prop in H. destruct H as [Hc Hs].
  rewrite (hexchar_upper_digit c Hc), (IH Hs). reflexivity.
Qed.

Lemma every_upper_digit_zeros (n : nat) : Py.every hex_upper_digit (Py.zeros n) = true.
Proof. induction n as [|k IH]; simpl; [reflexivity | exact IH]. Qed.

(** What a string of digits reads as, after [acc]. *)
Lemma int_digits_value (s : string) :
  Py.every hexchar s = true ->
  forall acc, exists w,
    Py.int_digits 16 s acc = Some (acc * 16 ^ N.of_nat (String.length s) + w)%N
    /\ (w < 16 ^ N.of_nat (String.length s))%N.
Proof.
  induction s as [|c s IH]; intros H acc.
  - exists 0%N. split; [simpl; f_equal; lia | reflexivity].
  - cbn [Py.every] in H. apply andb_prop in H. destruct H as [Hc Hs].
    destruct (hexchar_digit c Hc) as (d & Ed & Hd).
    destruct (IH Hs (16 * acc + d)%N) as (w & Ew & Hw).
    exists (d * 16 ^ N.of_nat (String.length s) + w)%N.
    rewrite int_digits_cons, Ed. pose proof Hd as Hd'. apply N.ltb_lt in Hd'. rewrite Hd'.
    rewrite Ew. cbn [String.length]. rewrite Nat2N.inj_succ, N.pow_succ_r'.
    split; [f_equal; lia | nia].
Qed.

(** X1: [integer_to_hex] can be read back: for every number and every pad,
    [int(integer_to_hex(var, pad), 16)] is [var]; the result holds only the
    digits 0-9 and A-F and is never shorter than the pad. *)
Theorem integer_to_hex_reads_back (var : N) (pad : nat) :
  Py.int (integer_to_hex var pad) 16 = Some var
  /\ Py.every hex_upper_digit (integer_to_hex var pad) = true
  /\ (pad <= String.length (integer_to_hex var pad))%nat
  /\ (1 <= String.length (integer_to_hex var pad))%nat.
Proof.
  split; [apply int_integer_to_hex|]. split; [|apply integer_to_hex_length_ge].
  unfold integer_to_hex, Py.hex, Py.digits.
  destruct (to_digits_spec (N.to_nat (N.log2 var)) var "" (digits_fuel var))
    as (D & HD & Hch & _).
  rewrite append_nil_r in HD. rewrite HD. cbn [append Py.drop].
  rewrite zfill_digits by (rewrite every_upper; [exact Hch | exact hexchar_upper]).
  rewrite every_append, every_upper_digit_zeros, (every_upper_digit D Hch). reflexivity.
Qed.

Lemma integer_to_hex_longer (var : N) (pad : nat) :
  (1 <= pad)%nat -> (16 ^ N.of_nat pad <= var)%N ->
  (pad < String.length (integer_to_hex var pad))%nat.
Proof.
  intros Hp Hv.
  destruct (integer_to_hex_length_ge var pad) as [Hge Hone].
  destruct (Nat.eq_dec (String.length (integer_to_hex var pad)) pad) as [E|]; [|lia].
  exfalso.
  pose proof (int_integer_to_hex var pad) as Hint.
  destruct (int_digits_value _ (integer_to_hex_hexchars var pad) 0%N) as (w & Ew & Hw).
  unfold Py.int in Hint.
  destruct (integer_to_hex var pad) as [|c s] eqn:Es; [simpl in Hone; lia|].
  rewrite Ew in Hint. rewrite E in *. injection Hint as Hint. lia.
Qed.

(** X2: [integer_to_hex] pads and never cuts: with a pad of at least one, the
    result has exactly [pad] digits when the number is below 16^pad, and more
    digits than the pad otherwise. *)
Theorem integer_to_hex_width (var : N) (pad : nat) :
  (1 <= pad)%nat ->
  ((var < 16 ^ N.of_nat pad)%N -> String.length (integer_to_hex var pad) = pad)
  /\ ((16 ^ N.of_nat pad <= var)%N -> (pad < String.length (integer_to_hex var pad))%nat).
Proof.
  intros Hp. split; [apply integer_to_hex_length; exact Hp|].
  apply integer_to_hex_longer. exact Hp.
Qed.

Lemma integer_to_hex_width_witness :
  ((65535 < 16 ^ N.of_nat 4)%N -> String.length (integer_to_hex 65535 4) = 4%nat)
  /\ ((16 ^ N.of_nat 4 <= 65535)%N -> (4 < String.length (integer_to_hex 65535 4))%nat).
Proof. apply (integer_to_hex_width 65535 4). lia. Defined.

(** X3: for every character, [string_to_hex] gives two hexadecimal digits
    that read back as the code of the character. *)
Theorem string_to_hex_reads_back (c : ascii) :
  String.length (string_to_hex c) = 2%nat
  /\ hex_byte (string_to_hex c) = true
  /\ Py.int (string_to_hex c) 16 = Some (Py.ord c).
Proof.
  pose proof (string_to_hex_byte c) as H.
  split; [|split; [exact H | apply int_integer_to_hex]].
  destruct (string_to_hex c) as [|a [|b [|d s]]]; try discriminate H. reflexivity.
Qed.

(** *** The size of a string of hexadecimal digits *)

Lemma remove_blank_digits (s : string) :
  Py.every hexchar s = true -> Py.remove " " s = s.
Proof.
  induction s as [|c s IH]; simpl; [reflexivity|].
  intros H. apply andb_prop in H. destruct H as [Hc Hs].
  destruct (hexchar_not_space c Hc) as [_ E]. rewrite E, (IH Hs). reflexivity.
Qed.

(** [bytes.fromhex] on digits alone: a byte for every two digits, and an
    error when one digit is left over. *)
Lemma fromhex_digits (s : string) :
  Py.every hexchar s = true ->
  if Nat.even (String.length s)
  then exists bs, Py.fromhex s = Some bs /\ List.length bs = (String.length s / 2)%nat
  else Py.fromhex s = None.
Proof.
  induction s as [| c | a b s IH] using string_pairs; intros H.
  - exists []. split; reflexivity.
  - cbn [Py.every] in H. rewrite andb_true_r in H.
    pose proof (hexchar_not_space_bytes c H) as E. cbn. rewrite E. reflexivity.
  - cbn [Py.every] in H. apply andb_prop in H. destruct H as [Ha H].
    apply andb_prop in H. destruct H as [Hb Hs].
    pose proof (hexchar_not_space_bytes a Ha) as Ea.
    destruct (hexchar_digit a Ha) as (x & Ex & _).
    destruct (hexchar_digit b Hb) as (y & Ey & _).
    specialize (IH Hs).
    change (String.length (String a (String b s))) with (2 + String.length s)%nat.
    replace (Nat.even (2 + String.length s)) with (Nat.even (String.length s)) by reflexivity.
    cbn [Py.fromhex]. rewrite Ea, Ex, Ey.
    destruct (Nat.even (String.length s)).
    + destruct IH as (bs & -> & Hlen). eexists. split; [reflexivity|].
      cbn [List.length]. rewrite Hlen.
      change (2 + String.length s)%nat with (1 * 2 + String.length s)%nat.
      rewrite Nat.div_add_l by lia. reflexivity.
    + rewrite IH. reflexivity.
Qed.

Lemma get_basic_size_of_digits (s : string) (offset pad : nat) :
  Py.every hexchar s = true ->
  get_basic_size s offset pad =
  if Nat.even (String.length s)
  then Some (integer_to_hex (N.of_nat (String.length s / 2 + offset)) pad)
  else None.
Proof.
  intros H. unfold get_basic_size. rewrite (remove_blank_digits s H).
  pose proof (fromhex_digits s H) as F.
  destruct (Nat.even (String.length s)).
  - destruct F as (bs & -> & ->). reflexivity.
  - rewrite F. reflexivity.
Qed.

(** X4: on a string of hexadecimal digits, [get_basic_size] counts a byte
    for every two digits and adds the offset; a string with an odd number of
    digits is an error. *)
Theorem get_basic_size_digits (s : string) (offset pad : nat) :
  Py.every hexchar s = true ->
  get_basic_size s offset pad =
  if Nat.even (String.length s)
  then Some (integer_to_hex (N.of_nat (String.length s / 2 + offset)) pad)
  else None.
Proof. apply get_basic_size_of_digits. Qed.

Lemma get_basic_size_digits_witness :
  get_basic_size "0A1" 1 2 =
  if Nat.even (String.length "0A1")
  then Some (integer_to_hex (N.of_nat (String.length "0A1" / 2 + 1)) 2)
  else None.
Proof. apply (get_basic_size_digits "0A1" 1 2). reflexivity. Defined.

Lemma concat_bytes (l : list string) :
  hex_bytes l ->
  Py.every hexchar (String.concat "" l) = true
  /\ String.length (String.concat "" l) = (2 * List.length l)%nat.
Proof.
  induction 1 as [|x l Hx Hl [IH1 IH2]]; [split; reflexivity|].
  assert (E : String.concat "" (x :: l) = x ++ String.concat "" l).
  { destruct l; [simpl; symmetry; apply append_nil_r | reflexivity]. }
  rewrite E, every_append, length_append, IH1, IH2.
  destruct x as [|a [|b [|c x]]]; try discriminate Hx.
  cbn [hex_byte] in Hx. apply andb_prop in Hx. destruct Hx as [Ha Hb].
  cbn [Py.every String.length]. rewrite Ha, Hb.
  split; [reflexivity | cbn [List.length]; lia].
Qed.

(** X5: for a list of bytes in hexadecimal, [get_basic_size] gives the same
    size whether the bytes are joined with blanks or with nothing: the hex of
    the number of bytes plus the offset, which reads back as that number. *)
Theorem get_basic_size_counts_bytes (l : list string) (offset pad : nat) :
  hex_bytes l ->
  exists size,
    get_basic_size (Py.join " " l) offset pad = Some size
    /\ get_basic_size (Py.join "" l) offset pad = Some size
    /\ Py.int size 16 = Some (N.of_nat (List.length l + offset)).
Proof.
  intros H. exists (integer_to_hex (N.of_nat (List.length l + offset)) pad).
  split; [apply get_basic_size_bytes; exact H|].
  split; [|apply int_integer_to_hex].
  destruct (concat_bytes l H) as [Hch Hlen]. unfold Py.join.
  rewrite (get_basic_size_of_digits _ offset pad Hch), Hlen.
  rewrite Nat.even_mul. cbn [Nat.even orb].
  rewrite Nat.mul_comm, Nat.div_mul by lia. reflexivity.
Qed.

Lemma get_basic_size_counts_bytes_witness :
  exists size,
    get_basic_size (Py.join " " ["94"; "0D"]) 1 2 = Some size
    /\ get_basic_size (Py.join "" ["94"; "0D"]) 1 2 = Some size
    /\ Py.int size 16 = Some (N.of_nat (List.length ["94"; "0D"] + 1)).
Proof.
  apply (get_basic_size_counts_bytes ["94"; "0D"] 1 2).
  repeat constructor.
Defined.

(** *** The label and the code of a line *)

Lemma isdigit_decimal (c : ascii) :
  Py.isdigit c = true ->
  exists d, HexString.ascii_to_digit c = Some d /\ (d <? 10)%N = true.
Proof.
  each_char c; vm_compute; intros H; try discriminate H; eexists; split; reflexivity.
Qed.

Lemma int_digits_decimal (s : string) :
  Py.every Py.isdigit s = true -> forall acc, exists v, Py.int_digits 10 s acc = Some v.
Proof.
  induction s as [|c s IH]; intros H acc; [exists acc; reflexivity|].
  cbn [Py.every] in H. apply andb_prop in H. destruct H as [Hc Hs].
  destruct (isdigit_decimal c Hc) as (d & Ed & Hd).
  rewrite int_digits_cons, Ed, Hd. apply IH. exact Hs.
Qed.

Lemma int_decimal (s : string) :
  Py.every Py.isdigit s = true -> s <> "" -> exists v, Py.int s 10 = Some v.
Proof.
  intros H Hne. unfold Py.int. destruct s as [|c s]; [congruence|].
  apply int_digits_decimal. exact H.
Qed.

Lemma span_class (p : ascii -> bool) (s : string) :
  Py.every p (fst (Py.span p s)) = true.
Proof.
  induction s as [|c s IH]; [reflexivity|].
  cbn [Py.span]. destruct (p c) eqn:E; [|reflexivity].
  destruct (Py.span p s) as [a b]. cbn [fst Py.every] in *. rewrite E, IH. reflexivity.
Qed.

(** The longest run of the class at the start of [a ++ b], when [a] is in
    the class and [b] does not start in it. *)
Lemma span_append (p : ascii -> bool) (a b : string) :
  Py.every p a = true ->
  match b with "" => True | String c _ => p c = false end ->
  Py.span p (a ++ b) = (a, b).
Proof.
  intros Ha Hb. induction a as [|x a IH].
  - cbn [append]. destruct b as [|c b]; [reflexivity|]. cbn [Py.span]. rewrite Hb. reflexivity.
  - cbn [Py.every] in Ha. apply andb_prop in Ha. destruct Ha as [Hx Ha].
    cbn [append Py.span]. rewrite Hx, (IH Ha). reflexivity.
Qed.

Lemma upper_append (a b : string) : Py.upper (a ++ b) = Py.upper a ++ Py.upper b.
Proof. induction a as [|x a IH]; simpl; [reflexivity|]. rewrite IH. reflexivity. Qed.

Lemma upper_char_of_digit (c : ascii) : Py.isdigit c = true -> Py.upper_char c = c.
Proof. each_char c; vm_compute; intros H; try discriminate H; reflexivity. Qed.

Lemma upper_digits (s : string) : Py.every Py.isdigit s = true -> Py.upper s = s.
Proof.
  induction s as [|c s IH]; simpl; [reflexivity|].
  intros H. apply andb_prop in H. destruct H as [Hc Hs].
  rewrite (upper_char_of_digit c Hc), (IH Hs). reflexivity.
Qed.

Lemma span_all (p : ascii -> bool) (s : string) :
  Py.every p s = true -> Py.span p s = (s, "").
Proof.
  intros H. rewrite <- (append_nil_r s) at 1. apply span_append; [exact H | exact I].
Qed.

Lemma Extract_Number_String_digit (line : string) :
  no_label line = false -> exists label, fst (Extract_Number_String line) = Some label.
Proof.
  destruct line as [|c line]; [discriminate|]. cbn [no_label]. intros H.
  apply negb_false_iff in H.
  unfold Extract_Number_String, Py.match_number.
  pose proof (span_class Py.isdigit (Py.upper (String c line))) as Hd.
  cbn [Py.upper Py.span] in *. rewrite upper_char_isdigit, H in *.
  destruct (Py.span Py.isdigit (Py.upper line)) as [a b]. cbn [fst snd] in *.
  destruct (int_decimal (String (Py.upper_char c) a) Hd ltac:(discriminate)) as (v & Ev).
  exists v. cbn [fst]. exact Ev.
Qed.

(** X6: on a line of 7-bit ASCII text, [Extract_Number_String] finds a label
    exactly when the line starts with a digit: when it returns no label the
    line is empty or starts with anything else, a blank included, and comes
    back whole in upper case; when it returns a label the line starts with a
    digit. *)
Theorem Extract_Number_String_label (line : string) :
  Py.isascii line = true ->
  match fst (Extract_Number_String line) with
  | None => no_label line = true /\ snd (Extract_Number_String line) = Py.upper line
  | Some _ => no_label line = false
  end.
Proof.
  intros _. destruct (no_label line) eqn:E.
  - rewrite (Extract_Number_String_no_label line E). cbn [fst snd]. split; reflexivity.
  - destruct (Extract_Number_String_digit line E) as (label & ->). reflexivity.
Qed.

Lemma Extract_Number_String_label_witness :
  match fst (Extract_Number_String " 10 END") with
  | None => no_label " 10 END" = true /\ snd (Extract_Number_String " 10 END") = Py.upper " 10 END"
  | Some _ => no_label " 10 END" = false
  end.
Proof. apply (Extract_Number_String_label " 10 END"). reflexivity. Defined.

Lemma Extract_Number_String_append (number rest : string) :
  Py.every Py.isdigit number = true -> number <> "" ->
  no_label rest = true -> one_line rest = true ->
  Extract_Number_String (number ++ rest) = (Py.int number 10, Py.lstrip (Py.upper rest)).
Proof.
  intros Hn Hne Hr Hl.
  unfold Extract_Number_String, Py.match_number.
  rewrite upper_append, (upper_digits number Hn).
  rewrite (span_append Py.isdigit number (Py.upper rest) Hn).
  2:{ destruct rest as [|c rest]; [exact I|]. cbn [Py.upper no_label] in *.
      rewrite upper_char_isdigit. apply negb_true_iff. exact Hr. }
  destruct number as [|c number]; [congruence|].
  rewrite span_all; [reflexivity|].
  unfold one_line in Hl. rewrite every_upper; [exact Hl|].
  intros x. rewrite upper_char_eqb_newline. reflexivity.
Qed.

(** X7: for a line of 7-bit ASCII text made of a run of digits and a rest
    that does not start with a digit and holds no line feed, the label is the
    run read in base ten and the code is the rest in upper case without its
    leading white space. *)
Theorem Extract_Number_String_parts (number rest : string) :
  Py.isascii (number ++ rest) = true ->
  Py.every Py.isdigit number = true -> number <> "" ->
  no_label rest = true -> one_line rest = true ->
  Extract_Number_String (number ++ rest) = (Py.int number 10, Py.lstrip (Py.upper rest))
  /\ exists label, Py.int number 10 = Some label.
Proof.
  intros _ Hn Hne Hr Hl.
  split; [apply Extract_Number_String_append | apply int_decimal]; assumption.
Qed.

Lemma Extract_Number_String_parts_witness :
  Extract_Number_String ("0020" ++ "  goto 10") =
    (Py.int "0020" 10, Py.lstrip (Py.upper "  goto 10"))
  /\ exists label, Py.int "0020" 10 = Some label.
Proof.
  apply (Extract_Number_String_parts "0020" "  goto 10");
    [reflexivity | reflexivity | discriminate | reflexivity | reflexivity].
Defined.

Lemma lstrip_idem (s : string) : Py.lstrip (Py.lstrip s) = Py.lstrip s.
Proof.
  induction s as [|c s IH]; [reflexivity|].
  cbn [Py.lstrip]. destruct (Py.isspace c) eqn:E; [exact IH|].
  cbn [Py.lstrip]. rewrite E. reflexivity.
Qed.

(** X8: the code of a line that has a label never starts with white space,
    holds no lower-case letter and no line feed. *)
Theorem Extract_Number_String_code (line : string) (label : N) (code : string) :
  Extract_Number_String line = (Some label, code) ->
  Py.lstrip code = code /\ Py.upper code = code /\ one_line code = true.
Proof.
  intros H. split; [|split].
  - revert H. unfold Extract_Number_String.
    destruct (Py.match_number (Py.upper line)) as [[n r]|]; intros E; inversion E.
    apply lstrip_idem.
  - apply is_upper_fixed. eapply code_is_upper. exact H.
  - revert H. unfold Extract_Number_String, Py.match_number.
    destruct (Py.span Py.isdigit (Py.upper line)) as [n r].
    destruct n; intros E; inversion E.
    apply every_lstrip. apply span_class.
Qed.

Lemma Extract_Number_String_code_witness :
  Py.lstrip "PRINT X" = "PRINT X" /\ Py.upper "PRINT X" = "PRINT X"
  /\ one_line "PRINT X" = true.
Proof. apply (Extract_Number_String_code "10   print x" 10 "PRINT X"). reflexivity. Defined.

(** *** Lines without mnemonics, and the length of a line *)

Lemma concat_cons (x : string) (l : list string) :
  String.concat "" (x :: l) = x ++ String.concat "" l.
Proof. destruct l; [simpl; symmetry; apply append_nil_r | reflexivity]. Qed.

Lemma split_from_cons (in_run : bool) (cur s : string) :
  exists w ws, Py.split_from in_run cur s = w :: ws.
Proof.
  revert in_run cur. induction s as [|c s IH]; intros in_run cur; cbn [Py.split_from].
  - destruct in_run; eexists; eexists; reflexivity.
  - destruct (Bool.eqb (Py.isspace c) in_run); [apply IH | eexists; eexists; reflexivity].
Qed.

(** The pieces and the runs of [re.split] put together are the string. *)
Lemma concat_split_from (s : string) :
  forall (in_run : bool) (cur : string),
    String.concat "" (Py.split_from in_run cur s) = cur ++ s.
Proof.
  induction s as [|c s IH]; intros in_run cur; cbn [Py.split_from].
  - destruct in_run; [rewrite concat_cons; reflexivity|].
    cbn [String.concat]. symmetry. apply append_nil_r.
  - destruct (Bool.eqb (Py.isspace c) in_run).
    + rewrite IH, append_assoc. reflexivity.
    + rewrite concat_cons, IH. reflexivity.
Qed.

Lemma letters_append (a b : string) : letters (a ++ b) = (letters a ++ letters b)%list.
Proof.
  unfold letters. induction a as [|c a IH]; [reflexivity|].
  cbn [append list_ascii_of_string map app]. rewrite IH. reflexivity.
Qed.

Lemma plain_words_letters (words : list string) :
  existsb is_mnemonic words = false ->
  flat_map plain_word words = letters (String.concat "" words).
Proof.
  induction words as [|w words IH]; [reflexivity|].
  cbn [existsb flat_map]. intros H. apply orb_false_iff in H. destruct H as [Hw Hr].
  rewrite concat_cons, letters_append, (IH Hr). f_equal.
  unfold plain_word. unfold is_mnemonic in Hw.
  destruct (lookup w mnemonic_index); [discriminate | reflexivity].
Qed.

(** The codes of a line whose first word is no mnemonic. *)
Lemma code_bytes_plain (code : string) (w0 : string) (ws : list string) :
  Py.split_spaces code = w0 :: ws -> is_mnemonic w0 = false ->
  code_bytes code = (flat_map plain_word (w0 :: ws) ++ ["0D"])%list.
Proof.
  intros E H0. unfold code_bytes. rewrite E. unfold is_mnemonic in H0.
  destruct (lookup w0 mnemonic_index) as [c|] eqn:El; [discriminate|].
  cbn [app]. rewrite (encode_words_letters 0 w0 _ _ El) by constructor.
  rewrite (encode_letters_plain 0 w0 _ _ eq_refl). cbn [fst snd start_state code_segment_hex nospc app].
  match goal with
  | |- context [encode_words 1 _ ?s] =>
      destruct (encode_words_plain (ws ++ [String "013" ""]) 1 s) as (st & -> & Hst);
        [lia | reflexivity | apply letters_hex_bytes | ]
  end.
  rewrite Hst. cbn [code_segment_hex flat_map]. unfold plain_word at 2. rewrite El.
  rewrite flat_map_app. cbn [flat_map]. rewrite app_nil_r, app_assoc. reflexivity.
Qed.

(** X9: a line of 7-bit ASCII text in which no word is a mnemonic is emitted
    as it is: the codes of its characters, white space included, then the
    carriage return. *)
Theorem line_without_mnemonic (code : string) :
  Py.isascii code = true ->
  existsb is_mnemonic (Py.split_spaces code) = false ->
  code_bytes code = (letters code ++ ["0D"])%list.
Proof.
  intros _ H. destruct (split_from_cons false "" code) as (w0 & ws & E).
  fold (Py.split_spaces code) in E.
  pose proof H as H'. rewrite E in H'. cbn [existsb] in H'.
  apply orb_false_iff in H'. destruct H' as [H0 _].
  rewrite (code_bytes_plain code w0 ws E H0), <- E, (plain_words_letters _ H).
  unfold Py.split_spaces. rewrite concat_split_from. reflexivity.
Qed.

Lemma line_without_mnemonic_witness :
  code_bytes "A = B + 1" = (letters "A = B + 1" ++ ["0D"])%list.
Proof. apply (line_without_mnemonic "A = B + 1"); reflexivity. Defined.

Lemma encode_letters_length (index : nat) (word : string) :
  forall (hex : list string) (flag : bool),
    (List.length (fst (encode_letters index word hex flag))
     <= List.length hex + String.length word)%nat.
Proof.
  induction word as [|c word IH]; intros hex flag; cbn [encode_letters String.length fst].
  - lia.
  - destruct ((index =? 1)%nat && (Py.ord c =? 32)%N && flag).
    + specialize (IH hex false). lia.
    + specialize (IH (hex ++ [string_to_hex c])%list flag).
      rewrite length_app in IH. cbn [List.length] in IH. lia.
Qed.

Lemma encode_words_length (code_segment : list string) :
  forall (index : nat) (st st' : line_state),
    encode_words index code_segment st = Some st' ->
    (List.length (code_segment_hex st')
     <= List.length (code_segment_hex st) + String.length (String.concat "" code_segment))%nat.
Proof.
  induction code_segment as [|word rest IH]; intros index st st' E.
  - cbn [encode_words] in E. injection E as <-. lia.
  - rewrite concat_cons, length_append. cbn [encode_words] in E.
    destruct (lookup word mnemonic_index) as [code|] eqn:El.
    + apply IH in E. cbn [code_segment_hex] in E. rewrite length_app in E.
      cbn [List.length] in E.
      destruct word as [|c word]; [discriminate El|]. cbn [String.length]. lia.
    + pose proof (encode_letters_length index word (code_segment_hex st) (nospc st)) as Hl.
      destruct (encode_letters index word (code_segment_hex st) (nospc st)) as [hex flag].
      destruct (get_basic_size (Py.join " " hex) 1 2); [|discriminate].
      apply IH in E. cbn [code_segment_hex fst] in *. lia.
Qed.

Lemma concat_app (a b : list string) :
  String.concat "" (a ++ b) = String.concat "" a ++ String.concat "" b.
Proof.
  induction a as [|x a IH]; [reflexivity|].
  cbn [app]. rewrite !concat_cons, IH, append_assoc. reflexivity.
Qed.

Lemma code_bytes_length (code : string) :
  (1 <= List.length (code_bytes code) <= String.length code + 1)%nat.
Proof.
  split.
  - destruct (code_bytes_spec code) as (_ & body & ->). rewrite length_app. simpl. lia.
  - unfold code_bytes.
    destruct (encode_words 0 _ start_state) as [st|] eqn:E; [|simpl; lia].
    apply encode_words_length in E. cbn [start_state code_segment_hex List.length] in E.
    rewrite concat_app in E. unfold Py.split_spaces in E.
    rewrite concat_split_from, length_append in E. simpl in E. exact E.
Qed.

(** X10: a line has at least one code byte, the carriage return, and never
    more code bytes than its code has characters plus one; so every line with
    a label below 65536 and a code of at most 253 characters fits: its length
    is one byte. *)
Theorem short_lines_fit (label : N) (code : string) :
  (label < 65536)%N -> (String.length code <= 253)%nat ->
  (1 <= List.length (code_bytes code) <= String.length code + 1)%nat
  /\ line_fits (label, code) = true
  /\ hex_bytes (token_stream (label, code)).
Proof.
  intros Hl Hc. pose proof (code_bytes_length code) as H. split; [exact H|].
  assert (F : line_fits (label, code) = true).
  { unfold line_fits. apply andb_true_intro. split; [apply N.ltb_lt; exact Hl|].
    apply N.ltb_lt. lia. }
  split; [exact F | apply token_stream_hex_bytes; exact F].
Qed.

Lemma short_lines_fit_witness :
  (1 <= List.length (code_bytes "PRINT X") <= String.length "PRINT X" + 1)%nat
  /\ line_fits (10%N, "PRINT X") = true
  /\ hex_bytes (token_stream (10%N, "PRINT X")).
Proof. apply (short_lines_fit 10 "PRINT X"); [reflexivity | simpl; lia]. Defined.

(** *** The block of a file that fits *)

Lemma length_take (n : nat) (s : string) :
  String.length (Py.take n s) = Nat.min n (String.length s).
Proof.
  revert s. induction n as [|k IH]; intros [|c s]; cbn [Py.take String.length];
    try reflexivity.
  rewrite IH. reflexivity.
Qed.

Lemma length_drop (n : nat) (s : string) :
  String.length (Py.drop n s) = (String.length s - n)%nat.
Proof.
  revert s. induction n as [|k IH]; intros [|c s]; cbn [Py.drop String.length];
    try reflexivity.
  apply IH.
Qed.


(** The block in hexadecimal: the sum, the size, six zeros and the lines. *)
Lemma Create_HexData_fits (text_content : string) :
  block_fits text_content = true ->
  let size := integer_to_hex (N.of_nat (List.length (block_body text_content) + 10)) 4 in
  let final := (Py.take 2 size :: Py.drop 2 size
                :: repeat "00" 6 ++ block_body text_content)%list in
  exists total,
    sum_hex final 0 = Some total
    /\ hex_bytes final
    /\ Create_HexData text_content =
       Some (Py.take 2 (integer_to_hex total 4) :: Py.drop 2 (integer_to_hex total 4) :: final).
Proof.
  intros H size final. unfold block_fits in H.
  apply andb_prop in H. destruct H as [Hlines Hsize]. apply N.ltb_lt in Hsize.
  pose proof (token_streams_hex_bytes _ Hlines) as Hb.
  fold (block_body text_content) in Hb, Hsize.
  destruct (integer_to_hex_halves _ Hsize) as (H1 & H2 & _).
  assert (Hfinal : hex_bytes final).
  { subst final. constructor; [exact H1|]. constructor; [exact H2|].
    apply hex_bytes_app; [repeat constructor | exact Hb]. }
  destruct (sum_hex_total _ Hfinal 0%N) as (total & Et).
  exists total. split; [exact Et|]. split; [exact Hfinal|].
  unfold Create_HexData. rewrite encode_lines_token_streams. cbn [app].
  fold (block_body text_content). rewrite get_basic_size_bytes by exact Hb.
  fold size. change (integer_to_hex 0 2) with "00". cbn [app].
  subst final. rewrite Et. reflexivity.
Qed.

Lemma accepted_lines_none (lines : list string) :
  forallb no_label lines = true -> accepted_lines lines = [].
Proof.
  induction lines as [|line lines IH]; [reflexivity|].
  cbn [forallb]. intros H. apply andb_prop in H. destruct H as [Hl Hr].
  unfold accepted_lines in *. cbn [flat_map].
  rewrite (Extract_Number_String_no_label line Hl), (IH Hr). reflexivity.
Qed.

(** X11: a file in which no line starts with a digit, the empty file
    included, gives the block of the ten header bytes alone: the sum 00 0A,
    the length 00 0A and six zeros. *)
Theorem block_without_lines (text_content : string) :
  forallb no_label (Py.split "010" text_content) = true ->
  Create_HexData text_content =
    Some ["00"; "0A"; "00"; "0A"; "00"; "00"; "00"; "00"; "00"; "00"]
  /\ Create_BinData text_content =
    Some ["00000000"; "00001010"; "00000000"; "00001010"; "00000000";
          "00000000"; "00000000"; "00000000"; "00000000"; "00000000"].
Proof.
  intros H.
  assert (E : Create_HexData text_content =
              Some ["00"; "0A"; "00"; "0A"; "00"; "00"; "00"; "00"; "00"; "00"]).
  { unfold Create_HexData.
    rewrite encode_lines_token_streams, (accepted_lines_none _ H). reflexivity. }
  split; [exact E|]. unfold Create_BinData. rewrite E. reflexivity.
Qed.

Lemma block_without_lines_witness :
  Create_HexData "REM only a remark" =
    Some ["00"; "0A"; "00"; "0A"; "00"; "00"; "00"; "00"; "00"; "00"]
  /\ Create_BinData "REM only a remark" =
    Some ["00000000"; "00001010"; "00000000"; "00001010"; "00000000";
          "00000000"; "00000000"; "00000000"; "00000000"; "00000000"].
Proof. apply (block_without_lines "REM only a remark"). reflexivity. Defined.

Lemma split_cons (sep : ascii) (s : string) : exists w ws, Py.split sep s = w :: ws.
Proof.
  induction s as [|c s (w & ws & IH)]; cbn [Py.split]; [eexists; eexists; reflexivity|].
  destruct (Ascii.eqb c sep); [eexists; eexists; reflexivity|].
  rewrite IH. eexists; eexists; reflexivity.
Qed.

(** The lines of two texts put one after the other. *)
Lemma split_append (sep : ascii) (a b : string) :
  Py.split sep (a ++ String sep b) = (Py.split sep a ++ Py.split sep b)%list.
Proof.
  induction a as [|c a IH]; cbn [append Py.split].
  - rewrite Ascii.eqb_refl. reflexivity.
  - destruct (Ascii.eqb c sep); [rewrite IH; reflexivity|].
    rewrite IH. destruct (split_cons sep a) as (w & ws & ->). reflexivity.
Qed.

Lemma block_body_append (a b : string) :
  block_body (a ++ String "010" b) = (block_body a ++ block_body b)%list.
Proof.
  unfold block_body. rewrite split_append, accepted_lines_app, flat_map_app. reflexivity.
Qed.

Lemma block_fits_append (a b : string) :
  block_fits (a ++ String "010" b) = true ->
  block_fits a = true /\ block_fits b = true.
Proof.
  unfold block_fits. rewrite split_append, accepted_lines_app, forallb_app, flat_map_app.
  rewrite length_app. intros H.
  apply andb_prop in H. destruct H as [H Hs].
  apply andb_prop in H. destruct H as [Ha Hb]. apply N.ltb_lt in Hs.
  rewrite Ha, Hb. split; apply andb_true_intro; (split; [reflexivity|]); apply N.ltb_lt; lia.
Qed.

Lemma Create_HexData_body (text_content : string) :
  block_fits text_content = true ->
  option_map (skipn 10) (Create_HexData text_content) = Some (block_body text_content).
Proof.
  intros H. destruct (Create_HexData_fits text_content H) as (total & _ & _ & ->).
  reflexivity.
Qed.

(** X12: for a file of 7-bit ASCII text that fits, the lines come in the
    block in the order of the file and are not sorted by label: when the file
    is made of two parts, the bytes after the ten header bytes of its block
    are those of the first part followed by those of the second part. *)
Theorem block_in_file_order (a b : string) :
  Py.isascii (a ++ String "010" b) = true ->
  block_fits (a ++ String "010" b) = true ->
  exists body_a body_b,
    option_map (skipn 10) (Create_HexData a) = Some body_a
    /\ option_map (skipn 10) (Create_HexData b) = Some body_b
    /\ option_map (skipn 10) (Create_HexData (a ++ String "010" b)) =
       Some (body_a ++ body_b)%list.
Proof.
  intros _ H. destruct (block_fits_append a b H) as [Ha Hb].
  exists (block_body a), (block_body b).
  rewrite (Create_HexData_body a Ha), (Create_HexData_body b Hb),
    (Create_HexData_body _ H), block_body_append.
  repeat split.
Qed.

Lemma block_in_file_order_witness :
  exists body_a body_b,
    option_map (skipn 10) (Create_HexData "20 GOTO 10") = Some body_a
    /\ option_map (skipn 10) (Create_HexData "10 PRINT 1") = Some body_b
    /\ option_map (skipn 10) (Create_HexData ("20 GOTO 10" ++ String "010" "10 PRINT 1")) =
       Some (body_a ++ body_b)%list.
Proof. apply (block_in_file_order "20 GOTO 10" "10 PRINT 1"); reflexivity. Defined.



(** *** From hexadecimal to binary *)

Lemma byte_check_all : below 256 byte_check = true.
Proof. vm_compute. reflexivity. Qed.

Lemma binary_string_byte (v : N) :
  (v < 256)%N ->
  String.length (binary_string v 8) = 8%nat
  /\ bitstring (binary_string v 8) = true
  /\ Py.int (binary_string v 8) 2 = Some v.
Proof.
  intros H. pose proof (below_spec 256 byte_check byte_check_all v H) as E.
  unfold byte_check in E.
  apply andb_prop in E. destruct E as [E E3].
  apply andb_prop in E. destruct E as [E1 E2].
  apply Nat.eqb_eq in E1.
  destruct (Py.int (binary_string v 8) 2) as [w|]; [|discriminate].
  apply N.eqb_eq in E3. subst w. conjuncts; first [assumption | reflexivity].
Qed.

Lemma hex_to_binary_of_bytes (hex_array : list string) :
  hex_bytes hex_array ->
  exists binary_array,
    hex_to_binary hex_array 8 = Some binary_array
    /\ Forall2 (fun hex_digit binary_string =>
                  String.length binary_string = 8%nat
                  /\ bitstring binary_string = true
                  /\ Py.int binary_string 2 = Py.int hex_digit 16)
         hex_array binary_array.
Proof.
  induction 1 as [|x l Hx Hl (bs & E & IH)].
  - exists []. split; [reflexivity | constructor].
  - destruct (hex_byte_int x Hx) as (v & Ev & Hv).
    destruct (binary_string_byte v Hv) as (B1 & B2 & B3).
    exists (binary_string v 8 :: bs). cbn [hex_to_binary]. rewrite Ev, E.
    split; [reflexivity|]. constructor; [|exact IH].
    conjuncts; first [assumption | congruence].
Qed.

(** X14: [hex_to_binary] turns a list of bytes in hexadecimal into as many
    strings of eight characters 0 and 1, each of which reads in base two as
    the byte reads in base sixteen. *)
Theorem hex_to_binary_bytes (hex_array : list string) :
  hex_bytes hex_array ->
  exists binary_array,
    hex_to_binary hex_array 8 = Some binary_array
    /\ Forall2 (fun hex_digit binary_string =>
                  String.length binary_string = 8%nat
                  /\ bitstring binary_string = true
                  /\ Py.int binary_string 2 = Py.int hex_digit 16)
         hex_array binary_array.
Proof. apply hex_to_binary_of_bytes. Qed.

Lemma hex_to_binary_bytes_witness :
  exists binary_array,
    hex_to_binary ["00"; "0A"; "94"] 8 = Some binary_array
    /\ Forall2 (fun hex_digit binary_string =>
                  String.length binary_string = 8%nat
                  /\ bitstring binary_string = true
                  /\ Py.int binary_string 2 = Py.int hex_digit 16)
         ["00"; "0A"; "94"] binary_array.
Proof. apply (hex_to_binary_bytes ["00"; "0A"; "94"]). repeat constructor. Defined.

(** X15: on a list of strings of hexadecimal digits, [hex_to_binary] fails
    exactly when one of the strings is empty. *)
Theorem hex_to_binary_error (hex_array : list string) (pad : nat) :
  Forall (fun hex_digit => Py.every hexchar hex_digit = true) hex_array ->
  hex_to_binary hex_array pad = None <-> In "" hex_array.
Proof.
  induction 1 as [|x l Hx Hl IH]; cbn [hex_to_binary].
  - split; [discriminate | intros H; inversion H].
  - destruct x as [|c x].
    + split; [intros _; left; reflexivity | reflexivity].
    + destruct (int_hexchars (String c x) Hx ltac:(simpl; lia)) as (v & ->).
      destruct (hex_to_binary l pad) as [bs|].
      * split; [discriminate|]. intros [H|H]; [discriminate|].
        apply IH in H. discriminate.
      * split; [intros _; right; apply IH; reflexivity | reflexivity].
Qed.

Lemma hex_to_binary_error_witness :
  hex_to_binary ["0A"; ""; "94"] 8 = None <-> In "" ["0A"; ""; "94"].
Proof. apply (hex_to_binary_error ["0A"; ""; "94"] 8). repeat constructor. Defined.

(** *** Blocks made of bytes *)

(** X16: for a file of 7-bit ASCII text that fits and whose bytes sum to less than 65536, every
    element of the block is a byte: a string of eight characters 0 and 1; and
    the block has ten bytes more than the lines give. *)
Theorem block_of_bytes (text_content : string) (total_sum : N) :
  Py.isascii text_content = true ->
  block_fits text_content = true ->
  block_sum text_content = Some total_sum -> (total_sum < 65536)%N ->
  exists block,
    Create_BinData text_content = Some block
    /\ List.length block = (10 + List.length (block_body text_content))%nat
    /\ Forall (fun byte => String.length byte = 8%nat /\ bitstring byte = true) block.
Proof.
  intros _ H Hsum Hlt.
  destruct (Create_HexData_fits text_content H) as (total & Et & Hfinal & E).
  assert (total = total_sum) by (unfold block_sum in Hsum; rewrite E in Hsum; congruence).
  subst total.
  destruct (integer_to_hex_halves total_sum Hlt) as (H1 & H2 & _).
  assert (Hall : hex_bytes (Py.take 2 (integer_to_hex total_sum 4)
                            :: Py.drop 2 (integer_to_hex total_sum 4)
                            :: Py.take 2
                                 (integer_to_hex
                                    (N.of_nat (List.length (block_body text_content) + 10)) 4)
                            :: Py.drop 2
                                 (integer_to_hex
                                    (N.of_nat (List.length (block_body text_content) + 10)) 4)
                            :: repeat "00" 6 ++ block_body text_content))
    by (constructor; [exact H1|]; constructor; [exact H2 | exact Hfinal]).
  destruct (hex_to_binary_of_bytes _ Hall) as (b & Eb & F2).
  exists b. unfold Create_BinData. rewrite E. split; [exact Eb|]. split.
  - rewrite <- (Forall2_length F2). cbn [List.length]. rewrite length_app, repeat_length. lia.
  - clear - F2. induction F2 as [|h s l bs (A & B & _) _ IH]; constructor; auto.
Qed.

Lemma block_of_bytes_witness :
  exists block,
    Create_BinData "10 END" = Some block
    /\ List.length block = (10 + List.length (block_body "10 END"))%nat
    /\ Forall (fun byte => String.length byte = 8%nat /\ bitstring byte = true) block.
Proof. apply (block_of_bytes "10 END" 189); reflexivity. Defined.

(** *** Labels above 65535 *)

Lemma remove_append (c : ascii) (a b : string) :
  Py.remove c (a ++ b) = Py.remove c a ++ Py.remove c b.
Proof.
  induction a as [|x a IH]; [reflexivity|].
  cbn [append Py.remove]. rewrite IH. destruct (Ascii.eqb x c); reflexivity.
Qed.

Lemma remove_join_digits (l : list string) :
  Forall (fun s => Py.every hexchar s = true) l ->
  Py.remove " " (Py.join " " l) = String.concat "" l.
Proof.
  unfold Py.join. induction 1 as [|x l Hx Hl IH]; [reflexivity|].
  rewrite concat_cons. destruct l as [|y l].
  - cbn [String.concat]. rewrite append_nil_r. apply remove_blank_digits. exact Hx.
  - change (String.concat " " (x :: y :: l))
      with (x ++ String " " (String.concat " " (y :: l))).
    rewrite remove_append, (remove_blank_digits x Hx). cbn [Py.remove].
    cbn [Ascii.eqb Bool.eqb]. rewrite IH. reflexivity.
Qed.

Lemma every_concat (p : ascii -> bool) (l : list string) :
  Forall (fun s => Py.every p s = true) l -> Py.every p (String.concat "" l) = true.
Proof.
  induction 1 as [|x l Hx Hl IH]; [reflexivity|].
  rewrite concat_cons, every_append, Hx, IH. reflexivity.
Qed.

Lemma hex_bytes_digits (l : list string) :
  hex_bytes l -> Forall (fun s => Py.every hexchar s = true) l.
Proof.
  induction 1 as [|x l Hx Hl IH]; constructor; [|exact IH].
  destruct x as [|a [|b [|c x]]]; try discriminate Hx.
  cbn [hex_byte] in Hx. cbn [Py.every]. rewrite andb_true_r. exact Hx.
Qed.

(** The size of a spaced list of strings of digits is the size of the
    digits put together. *)
Lemma get_basic_size_join (l : list string) (offset pad : nat) :
  Forall (fun s => Py.every hexchar s = true) l ->
  get_basic_size (Py.join " " l) offset pad =
  get_basic_size (String.concat "" l) offset pad.
Proof.
  intros H. unfold get_basic_size.
  rewrite (remove_join_digits l H), (remove_blank_digits _ (every_concat _ l H)).
  reflexivity.
Qed.

Lemma integer_to_hex_five (var : N) :
  (65536 <= var < 1048576)%N -> String.length (integer_to_hex var 4) = 5%nat.
Proof.
  intros [Hlo Hhi].
  pose proof (integer_to_hex_longer var 4 ltac:(lia) Hlo) as Hgt.
  destruct (integer_to_hex_shape var 4) as (D & E & _ & Hlen & _ & Hmin).
  specialize (Hmin 4%nat Hhi). rewrite E in *.
  rewrite length_append, length_zeros in *. lia.
Qed.

(** X17: a file of 7-bit ASCII text with one labelled line whose label is between 65536 and
    1048575 makes no block: the label takes five hexadecimal digits, the
    digits of the line are odd in number, and the size of the block cannot be
    taken. *)
Theorem label_of_five_digits_fails (text_content : string) (label : N) (code : string) :
  Py.isascii text_content = true ->
  accepted_lines (Py.split "010" text_content) = [(label, code)] ->
  (65536 <= label < 1048576)%N -> (String.length code <= 253)%nat ->
  Create_HexData text_content = None /\ Create_BinData text_content = None.
Proof.
  intros _ Hacc Hlabel Hcode.
  assert (E : Create_HexData text_content = None); [|split; [exact E|]].
  2:{ unfold Create_BinData. rewrite E. reflexivity. }
  unfold Create_HexData. rewrite encode_lines_token_streams, Hacc.
  cbn [flat_map app]. rewrite app_nil_r.
  pose proof (integer_to_hex_five label Hlabel) as H5.
  pose proof (integer_to_hex_hexchars label 4) as Hch.
  pose proof (code_bytes_length code) as Hlen.
  destruct (code_bytes_spec code) as [Hb _].
  assert (Hline : hex_byte (integer_to_hex (N.of_nat (List.length (code_bytes code) + 1)) 2)
                  = true) by (apply integer_to_hex_byte; lia).
  assert (Hrest : hex_bytes
                    (integer_to_hex (N.of_nat (List.length (code_bytes code) + 1)) 2
                     :: code_bytes code)) by (constructor; assumption).
  assert (Hall : Forall (fun s => Py.every hexchar s = true) (token_stream (label, code))).
  { unfold token_stream. cbn [app].
    constructor; [apply every_take; exact Hch|].
    constructor; [apply every_drop; exact Hch|].
    apply hex_bytes_digits. exact Hrest. }
  rewrite (get_basic_size_join _ 10 4 Hall).
  rewrite (get_basic_size_of_digits _ 10 4 (every_concat _ _ Hall)).
  replace (Nat.even (String.length (String.concat "" (token_stream (label, code)))))
    with false; [reflexivity|].
  unfold token_stream. cbn [app]. rewrite !concat_cons, !length_append.
  destruct (concat_bytes _ Hrest) as [_ Hl]. rewrite concat_cons, length_append in Hl.
  rewrite length_take, length_drop, H5, Hl.
  symmetry. cbn [Nat.min Nat.sub]. rewrite <- Nat.negb_odd. apply negb_false_iff.
  apply Nat.odd_spec. exists (3 + List.length (code_bytes code))%nat.
  cbn [List.length]. lia.
Qed.

Lemma label_of_five_digits_fails_witness :
  Create_HexData "70000 END" = None /\ Create_BinData "70000 END" = None.
Proof.
  apply (label_of_five_digits_fails "70000 END" 70000 "END");
    [reflexivity | reflexivity | lia | simpl; lia].
Defined.

(** *** Frames of any length *)

Lemma int_of_digit (c : ascii) :
  Py.isdigit c = true ->
  exists v, Py.int (String c "") 10 = Some v /\ (v =? 1)%N = one_bit c.
Proof.
  each_char c; vm_compute; intros H; try discriminate H; eexists; split; reflexivity.
Qed.

Lemma int_of_other (c : ascii) :
  Py.isdigit c = false -> Py.int (String c "") 10 = None.
Proof. each_char c; vm_compute; intros H; try discriminate H; reflexivity. Qed.

Lemma is_even_of_nat (n : nat) : is_even (N.of_nat n) = Nat.even n.
Proof.
  unfold is_even. destruct (Nat.even n) eqn:E.
  - apply Nat.even_spec in E. destruct E as [k ->].
    rewrite Nat2N.inj_mul, N.mul_comm, N.Div0.mod_mul. reflexivity.
  - rewrite <- Nat.negb_odd in E. apply negb_false_iff, Nat.odd_spec in E.
    destruct E as [k ->]. apply N.eqb_neq.
    rewrite Nat2N.inj_add, Nat2N.inj_mul, N.add_comm, N.mul_comm, N.Div0.mod_add.
    discriminate.
Qed.

(** The loop over the bits of a string of digits. *)
Lemma encode_bits_digits (bytes : string) :
  Py.every Py.isdigit bytes = true ->
  forall (kinds : list bool) (p : nat),
    encode_bits [true] [false] bytes kinds (N.of_nat p) =
    Some ((kinds ++ bit_kinds bytes)%list, N.of_nat (p + ones (bit_kinds bytes))).
Proof.
  induction bytes as [|c bytes IH]; intros H kinds p.
  - cbn. rewrite app_nil_r, Nat.add_0_r. reflexivity.
  - cbn [Py.every] in H. apply andb_prop in H. destruct H as [Hc Hs].
    destruct (int_of_digit c Hc) as (v & Ev & E1).
    cbn [encode_bits]. rewrite Ev, E1.
    unfold bit_kinds, ones. cbn [list_ascii_of_string map count_occ].
    fold (bit_kinds bytes). fold (ones (bit_kinds bytes)).
    destruct (one_bit c).
    + destruct (bool_dec true true) as [_|N]; [|congruence].
      replace (N.of_nat p + 1)%N with (N.of_nat (S p)) by lia.
      rewrite (IH Hs), <- app_assoc. f_equal. f_equal. f_equal. lia.
    + destruct (bool_dec false true) as [N|_]; [discriminate|].
      rewrite (IH Hs), <- app_assoc. reflexivity.
Qed.

Lemma every_reverse (p : ascii -> bool) (s : string) :
  Py.every p (Py.reverse s) = Py.every p s.
Proof.
  induction s as [|c s IH]; [reflexivity|].
  cbn [Py.reverse Py.every]. rewrite every_append, IH. cbn [Py.every].
  rewrite andb_true_r. apply andb_comm.
Qed.

Lemma bit_kinds_append (a b : string) :
  bit_kinds (a ++ b) = (bit_kinds a ++ bit_kinds b)%list.
Proof.
  unfold bit_kinds. induction a as [|c a IH]; [reflexivity|].
  cbn [append list_ascii_of_string map app]. rewrite IH. reflexivity.
Qed.

Lemma bit_kinds_reverse (s : string) : bit_kinds (Py.reverse s) = rev (bit_kinds s).
Proof.
  induction s as [|c s IH]; [reflexivity|].
  cbn [Py.reverse]. rewrite bit_kinds_append, IH. reflexivity.
Qed.

Lemma ones_rev (kinds : list bool) : ones (rev kinds) = ones kinds.
Proof.
  induction kinds as [|k kinds IH]; [reflexivity|].
  cbn [rev]. rewrite ones_app, IH. unfold ones. cbn [count_occ].
  destruct (bool_dec k true); lia.
Qed.

Lemma Encode_Data_of_digits (STARTBIT : Z) (bytes : string) :
  Py.every Py.isdigit bytes = true ->
  Encode_Data [true] [false] STARTBIT bytes =
  Some (negb (STARTBIT =? 0)%Z :: rev (bit_kinds bytes)
        ++ [Nat.odd (ones (rev (bit_kinds bytes)))])%list.
Proof.
  intros H. unfold Encode_Data.
  pose proof (encode_bits_digits (Py.reverse bytes)) as E.
  rewrite every_reverse in E. specialize (E H).
  change 0%N with (N.of_nat 0). rewrite E, bit_kinds_reverse. cbn [Nat.add].
  rewrite is_even_of_nat, Nat.negb_even.
  destruct (STARTBIT =? 0)%Z; destruct (Nat.odd (ones (rev (bit_kinds bytes))));
    cbn [negb app]; reflexivity.
Qed.

(** X18: for a string of digits of any length, the frame is the start
    pulse, a one pulse unless the start bit is 0; then a pulse for every
    character, last character first, a one pulse for the digit 1 and a zero
    pulse for any other digit; then the parity pulse, which makes the number
    of one pulses after the start pulse even.  The frame has two pulses more
    than the string has characters. *)
Theorem Encode_Data_any_length {sample : Type} (one_pulse zero_pulse : list sample)
    (STARTBIT : Z) (bytes : string) :
  Py.every Py.isdigit bytes = true ->
  let data := rev (bit_kinds bytes) in
  let parity := Nat.odd (ones data) in
  Encode_Data [true] [false] STARTBIT bytes =
    Some (negb (STARTBIT =? 0)%Z :: data ++ [parity])%list
  /\ Encode_Data one_pulse zero_pulse STARTBIT bytes =
       Some (wave one_pulse zero_pulse (negb (STARTBIT =? 0)%Z)
             ++ waves one_pulse zero_pulse data
             ++ wave one_pulse zero_pulse parity)%list
  /\ List.length (negb (STARTBIT =? 0)%Z :: data ++ [parity])%list
     = (String.length bytes + 2)%nat
  /\ Nat.Even (ones (data ++ [parity])).
Proof.
  intros H data parity.
  pose proof (Encode_Data_of_digits STARTBIT bytes H) as E. fold data parity in E.
  split; [exact E|]. split; [|split].
  - rewrite Encode_Data_waves, E. cbn [option_map]. f_equal.
    unfold waves. cbn [flat_map]. rewrite flat_map_app. cbn [flat_map].
    rewrite app_nil_r. reflexivity.
  - cbn [List.length]. rewrite length_app. subst data.
    rewrite length_rev. unfold bit_kinds. rewrite length_map.
    cbn [List.length]. clear. induction bytes as [|c s IH]; simpl in *; lia.
  - apply ones_with_parity.
Qed.

Lemma Encode_Data_any_length_witness :
  let data := rev (bit_kinds "110010010110") in
  let parity := Nat.odd (ones data) in
  Encode_Data [true] [false] 1 "110010010110" =
    Some (negb (1 =? 0)%Z :: data ++ [parity])%list
  /\ Encode_Data one_pulse zero_pulse 1 "110010010110" =
       Some (wave one_pulse zero_pulse (negb (1 =? 0)%Z)
             ++ waves one_pulse zero_pulse data
             ++ wave one_pulse zero_pulse parity)%list
  /\ List.length (negb (1 =? 0)%Z :: data ++ [parity])%list
     = (String.length "110010010110" + 2)%nat
  /\ Nat.Even (ones (data ++ [parity])).
Proof. apply (Encode_Data_any_length one_pulse zero_pulse 1 "110010010110"). reflexivity. Defined.

Lemma encode_bits_other {sample : Type} (one_pulse zero_pulse : list sample) (bytes : string) :
  Py.every Py.isdigit bytes = false ->
  forall encoded p, encode_bits one_pulse zero_pulse bytes encoded p = None.
Proof.
  induction bytes as [|c bytes IH]; intros H encoded p; [discriminate|].
  cbn [Py.every] in H. cbn [encode_bits].
  destruct (Py.isdigit c) eqn:Ec.
  - destruct (int_of_digit c Ec) as (v & -> & _). cbn [andb] in H.
    destruct (v =? 1)%N; apply IH; exact H.
  - rewrite (int_of_other c Ec). reflexivity.
Qed.

(** X19: [Encode_Data] fails exactly when the string holds a character that
    is no decimal digit, whatever the pulses and the start bit. *)
Theorem Encode_Data_error {sample : Type} (one_pulse zero_pulse : list sample)
    (STARTBIT : Z) (bytes : string) :
  Encode_Data one_pulse zero_pulse STARTBIT bytes = None <->
  Py.every Py.isdigit bytes = false.
Proof.
  destruct (Py.every Py.isdigit bytes) eqn:E.
  - rewrite Encode_Data_waves, (Encode_Data_of_digits STARTBIT bytes E).
    split; discriminate.
  - split; [reflexivity|]. intros _. unfold Encode_Data.
    rewrite encode_bits_other; [reflexivity|]. rewrite every_reverse. exact E.
Qed.

(** *** The block through the modulator *)

Lemma bit_not_sign (c : ascii) :
  Ascii.eqb c "0" || Ascii.eqb c "1" = true -> Ascii.eqb c "+" || Ascii.eqb c "-" = false.
Proof. each_char c; vm_compute; intros H; try discriminate H; reflexivity. Qed.

Lemma bitstring_zeros (n : nat) : bitstring (Py.zeros n) = true.
Proof. induction n as [|k IH]; [reflexivity | exact IH]. Qed.

Lemma bitstring_zfill (width : nat) (s : string) :
  bitstring s = true -> bitstring (Py.zfill width s) = true.
Proof.
  intros H. unfold Py.zfill. destruct s as [|c s]; [apply bitstring_zeros|].
  pose proof H as H'. unfold bitstring in H'. cbn [Py.every] in H'.
  apply andb_prop in H'. destruct H' as [Hc _].
  rewrite (bit_not_sign c Hc), bitstring_app, bitstring_zeros, H. reflexivity.
Qed.

Lemma to_digits_bits (fuel : nat) :
  forall (n : N) (acc : string),
    bitstring acc = true -> bitstring (Py.to_digits fuel 2 n acc) = true.
Proof.
  induction fuel as [|f IH]; intros n acc H; [exact H|].
  rewrite to_digits_step.
  assert (Hd : bitstring (String (Py.digit_char (n mod 2)) acc) = true).
  { unfold bitstring. cbn [Py.every]. fold (bitstring acc). rewrite H.
    pose proof (N.mod_lt n 2 ltac:(lia)) as Hm.
    destruct (n mod 2)%N as [|[| |]]; try lia; reflexivity. }
  destruct (n / 2 =? 0)%N; [exact Hd | apply IH; exact Hd].
Qed.

Lemma binary_string_bits (v : N) (pad : nat) : bitstring (binary_string v pad) = true.
Proof.
  unfold binary_string, Py.bin, Py.digits. cbn [append Py.drop].
  apply bitstring_zfill, to_digits_bits. reflexivity.
Qed.

Lemma hex_to_binary_bits (hex_array : list string) (pad : nat) :
  forall binary_array,
    hex_to_binary hex_array pad = Some binary_array ->
    forallb bitstring binary_array = true.
Proof.
  induction hex_array as [|x l IH]; intros bs E; cbn [hex_to_binary] in E.
  - injection E as <-. reflexivity.
  - destruct (Py.int x 16) as [v|]; [|discriminate].
    destruct (hex_to_binary l pad) as [b|]; [|discriminate].
    injection E as <-. cbn [forallb]. rewrite binary_string_bits, (IH b eq_refl). reflexivity.
Qed.

(** X20: every block that [Create_BinData] makes goes through the
    modulator: its elements are strings of the characters 0 and 1, whatever
    their length, so when the zero pulse is not empty [Write_Wav] writes the
    leader, a frame for every element and the trailer, and does not fail. *)
Theorem block_is_written {sample : Type} (one_pulse zero_pulse : list sample)
    (FRAMERATE LEADER STARTBIT BLANKS : Z) (text_content : string) (block : list string) :
  Create_BinData text_content = Some block ->
  (0 < List.length zero_pulse)%nat ->
  forallb bitstring block = true
  /\ exists frames,
       encode_all one_pulse zero_pulse STARTBIT block = Some frames
       /\ Write_Wav one_pulse zero_pulse FRAMERATE LEADER STARTBIT BLANKS block =
            Some (leader zero_pulse FRAMERATE LEADER ++ frames
                  ++ trailer one_pulse BLANKS)%list.
Proof.
  intros E Hz.
  assert (Hbits : forallb bitstring block = true).
  { unfold Create_BinData in E. destruct (Create_HexData text_content) as [h|]; [|discriminate].
    eapply hex_to_binary_bits. exact E. }
  split; [exact Hbits|].
  destruct (encode_all_total one_pulse zero_pulse STARTBIT block Hbits) as (frames & Ef).
  exists frames. split; [exact Ef|]. unfold Write_Wav. rewrite Ef.
  destruct (List.length zero_pulse =? 0)%nat eqn:E0; [|reflexivity].
  apply Nat.eqb_eq in E0. lia.
Qed.

Lemma block_is_written_witness :
  forallb bitstring ["00000000"; "00001010"; "00000000"; "00001010"; "00000000";
                     "00000000"; "00000000"; "00000000"; "00000000"; "00000000"] = true
  /\ exists frames,
       encode_all one_pulse zero_pulse 1
         ["00000000"; "00001010"; "00000000"; "00001010"; "00000000";
          "00000000"; "00000000"; "00000000"; "00000000"; "00000000"] = Some frames
       /\ Write_Wav one_pulse zero_pulse 22050 8 1 25
            ["00000000"; "00001010"; "00000000"; "00001010"; "00000000";
             "00000000"; "00000000"; "00000000"; "00000000"; "00000000"] =
            Some (leader zero_pulse 22050 8 ++ frames ++ trailer one_pulse 25)%list.
Proof.
  apply (block_is_written one_pulse zero_pulse 22050 8 1 25 "");
    [reflexivity | rewrite length_zero_pulse; lia].
Defined.

(** X21: when the frame rate is a multiple of the number of samples of the
    zero pulse, the leader has exactly leader_seconds x framerate samples;
    the zero pulse of the program has ten samples, so this holds for every
    frame rate that is a multiple of ten. *)
Theorem leader_is_exact {sample : Type} (zero_pulse : list sample) (FRAMERATE LEADER : Z) :
  (0 < List.length zero_pulse)%nat -> (0 <= FRAMERATE)%Z -> (0 <= LEADER)%Z ->
  (FRAMERATE mod Z.of_nat (List.length zero_pulse) = 0)%Z ->
  Z.of_nat (List.length (leader zero_pulse FRAMERATE LEADER)) = (LEADER * FRAMERATE)%Z.
Proof.
  intros Hz HF HL Hm. rewrite length_leader by assumption.
  pose proof (Z.div_mod FRAMERATE (Z.of_nat (List.length zero_pulse)) ltac:(lia)) as Hdm.
  rewrite Hm, Z.add_0_r in Hdm. rewrite <- Hdm. ring.
Qed.

Lemma leader_is_exact_witness :
  Z.of_nat (List.length (leader zero_pulse 22050 8)) = (8 * 22050)%Z.
Proof.
  apply (leader_is_exact zero_pulse 22050 8);
    [rewrite length_zero_pulse; lia | lia | lia | rewrite length_zero_pulse; reflexivity].
Defined.

(** *** Square waves *)

Lemma length_samples (v n : Z) : List.length (samples v n) = Z.to_nat n.
Proof. unfold samples. apply repeat_length. Qed.

(** X22: for a frequency above zero and a frame rate that is not negative,
    the square wave is [n] samples at 16 followed by [n] samples at 240, with
    [n] the whole part of framerate / (2 x freq): one cycle of the wave is
    never longer than one period at the frame rate and is less than two
    samples per unit of frequency short of it, and the wave is empty exactly
    when the frame rate is below twice the frequency. *)
Theorem make_square_wave_shape (freq framerate : Z) :
  (0 < freq)%Z -> (0 <= framerate)%Z ->
  let n := (framerate / (freq * 2))%Z in
  make_square_wave freq framerate =
    (repeat 16%Z (Z.to_nat n) ++ repeat 240%Z (Z.to_nat n))%list
  /\ Z.of_nat (List.length (make_square_wave freq framerate)) = (2 * n)%Z
  /\ (Z.of_nat (List.length (make_square_wave freq framerate)) * freq <= framerate)%Z
  /\ (framerate < (Z.of_nat (List.length (make_square_wave freq framerate)) + 2) * freq)%Z
  /\ (make_square_wave freq framerate = [] <-> (framerate < 2 * freq)%Z).
Proof.
  intros Hf Hr n.
  assert (Hq : Z.quot framerate (freq * 2) = n) by (apply Z.quot_div_nonneg; lia).
  assert (Hn : (0 <= n)%Z) by (apply Z.div_pos; lia).
  assert (E : make_square_wave freq framerate =
              (repeat 16%Z (Z.to_nat n) ++ repeat 240%Z (Z.to_nat n))%list).
  { unfold make_square_wave, samples. rewrite Hq. reflexivity. }
  assert (L : Z.of_nat (List.length (make_square_wave freq framerate)) = (2 * n)%Z).
  { rewrite E, length_app, !repeat_length. lia. }
  pose proof (Z.div_mod framerate (freq * 2) ltac:(lia)) as Hdm. fold n in Hdm.
  pose proof (Z.mod_pos_bound framerate (freq * 2) ltac:(lia)) as Hmod.
  split; [exact E|]. split; [exact L|]. rewrite L.
  split; [nia|]. split; [nia|].
  split.
  - intros H0. rewrite H0 in L. change (Z.of_nat (List.length (@nil Z))) with 0%Z in L.
    assert (Hn0 : n = 0%Z) by lia. rewrite Hn0 in Hdm. lia.
  - intros Hlt. assert (n = 0%Z) by (apply Z.div_small; lia).
    rewrite E, H. reflexivity.
Qed.

Lemma make_square_wave_shape_witness :
  let n := (22050 / (2000 * 2))%Z in
  make_square_wave 2000 22050 =
    (repeat 16%Z (Z.to_nat n) ++ repeat 240%Z (Z.to_nat n))%list
  /\ Z.of_nat (List.length (make_square_wave 2000 22050)) = (2 * n)%Z
  /\ (Z.of_nat (List.length (make_square_wave 2000 22050)) * 2000 <= 22050)%Z
  /\ (22050 < (Z.of_nat (List.length (make_square_wave 2000 22050)) + 2) * 2000)%Z
  /\ (make_square_wave 2000 22050 = [] <-> (22050 < 2 * 2000)%Z).
Proof. apply (make_square_wave_shape 2000 22050); lia. Defined.

(** *** Mnemonic codes and character codes *)

Lemma mnemonic_codes_high (h : string) :
  In h (map snd mnemonic_index) ->
  exists v, Py.int h 16 = Some v /\ (128 <= v < 256)%N.
Proof.
  intros H.
  assert (F : forallb (fun h => match Py.int h 16 with
                                | Some v => (128 <=? v)%N && (v <? 256)%N
                                | None => false
                                end) (map snd mnemonic_index) = true) by reflexivity.
  rewrite forallb_forall in F. specialize (F h H).
  destruct (Py.int h 16) as [v|]; [|discriminate].
  apply andb_prop in F. destruct F as [F1 F2].
  apply N.leb_le in F1. apply N.ltb_lt in F2. exists v. split; [reflexivity | lia].
Qed.

Lemma upper_char_ascii7 (c : ascii) : ascii7 (Py.upper_char c) = ascii7 c.
Proof. each_char c; vm_compute; reflexivity. Qed.

Lemma code_is_ascii7 (line : string) (label : option N) (code : string) :
  Py.isascii line = true ->
  Extract_Number_String line = (label, code) -> Py.every ascii7 code = true.
Proof.
  intros Ha. unfold Extract_Number_String, Py.match_number.
  assert (H : Py.every ascii7 (Py.upper line) = true)
    by (rewrite every_upper; [exact Ha | exact upper_char_ascii7]).
  destruct (every_span ascii7 Py.isdigit _ H) as [_ H2].
  destruct (Py.span Py.isdigit (Py.upper line)) as [number_str rest]. cbn [snd] in H2.
  destruct (every_span ascii7 (fun c => negb (Ascii.eqb c "010")) _ H2) as [H3 _].
  destruct number_str; intros E; inversion E; subst; [exact H|].
  apply every_lstrip. exact H3.
Qed.

(** X23: in the code bytes of a line of 7-bit ASCII text, a byte from 128 up
    is the code of a mnemonic and a byte below 128 is the code of a
    character: no mnemonic code can be taken for a character. *)
Theorem codes_and_characters (line : string) (label : N) (code : string) :
  Py.isascii line = true ->
  Extract_Number_String line = (Some label, code) ->
  Forall code_class (code_bytes code).
Proof.
  intros Ha He.
  pose proof (code_is_ascii7 line (Some label) code Ha He) as Hc.
  pose proof (code_bytes_code_of ascii7 code Hc eq_refl) as F.
  eapply Forall_impl; [|exact F].
  intros h [Hin | (c & Hp & ->)].
  - destruct (mnemonic_codes_high h Hin) as (v & Ev & Hv).
    exists v. split; [exact Ev|]. left. split; assumption.
  - exists (Py.ord c). split; [apply int_integer_to_hex|]. right.
    split; [apply N.ltb_lt; exact Hp|]. exists c. split; reflexivity.
Qed.

Lemma codes_and_characters_witness : Forall code_class (code_bytes "IF A=1 GOTO 20").
Proof.
  apply (codes_and_characters "30 if a=1 goto 20" 30 "IF A=1 GOTO 20"); reflexivity.
Defined.

(** *** The checksum past 16 bits *)

(** X24: for a file of 7-bit ASCII text that fits, the first element of the
    block has two hexadecimal digits, and the second has two digits exactly
    when the bytes that follow sum to less than 65536, and more than two
    otherwise: the sum is never cut down to 16 bits. *)
Theorem checksum_width (text_content : string) (total_sum : N) :
  Py.isascii text_content = true ->
  block_fits text_content = true ->
  block_sum text_content = Some total_sum ->
  exists total_hex1 total_hex2 final_hex_array,
    Create_HexData text_content = Some (total_hex1 :: total_hex2 :: final_hex_array)
    /\ String.length total_hex1 = 2%nat
    /\ (2 <= String.length total_hex2)%nat
    /\ (String.length total_hex2 =? 2)%nat = (total_sum <? 65536)%N.
Proof.
  intros _ H Hsum.
  destruct (Create_HexData_fits text_content H) as (total & Et & _ & E).
  assert (total = total_sum) by (unfold block_sum in Hsum; rewrite E in Hsum; congruence).
  subst total. do 3 eexists. split; [exact E|].
  destruct (integer_to_hex_length_ge total_sum 4) as [Hge _].
  rewrite length_take, length_drop. split; [lia|]. split; [lia|].
  destruct (total_sum <? 65536)%N eqn:Hs.
  - apply N.ltb_lt in Hs.
    rewrite (integer_to_hex_length total_sum 4 ltac:(lia) Hs). reflexivity.
  - apply N.ltb_ge in Hs.
    pose proof (integer_to_hex_longer total_sum 4 ltac:(lia) Hs).
    apply Nat.eqb_neq. lia.
Qed.

Lemma checksum_width_witness :
  exists total_hex1 total_hex2 final_hex_array,
    Create_HexData three_remarks = Some (total_hex1 :: total_hex2 :: final_hex_array)
    /\ String.length total_hex1 = 2%nat
    /\ (2 <= String.length total_hex2)%nat
    /\ (String.length total_hex2 =? 2)%nat = (68758 <? 65536)%N.
Proof. apply (checksum_width three_remarks 68758); vm_compute; reflexivity. Defined.

(** *** The bytes of the label *)

(** X25: for a label below 65536 the line starts with the label on two
    bytes, the high byte first, and goes on with the length and the code
    bytes. *)
Theorem label_bytes (label : N) (code : string) :
  (label < 65536)%N ->
  exists label_hex1 label_hex2 line_length,
    encode_line label code =
      Some (label_hex1 :: label_hex2 :: line_length :: code_bytes code)
    /\ hex_byte label_hex1 = true /\ hex_byte label_hex2 = true
    /\ Py.int label_hex1 16 = Some (label / 256)%N
    /\ Py.int label_hex2 16 = Some (label mod 256)%N.
Proof.
  intros H. destruct (integer_to_hex_halves label H) as (H1 & H2 & I1 & I2).
  do 3 eexists. split; [rewrite encode_line_token_stream; reflexivity|].
  conjuncts; assumption.
Qed.

Lemma label_bytes_witness :
  exists label_hex1 label_hex2 line_length,
    encode_line 1000 "END" =
      Some (label_hex1 :: label_hex2 :: line_length :: code_bytes "END")
    /\ hex_byte label_hex1 = true /\ hex_byte label_hex2 = true
    /\ Py.int label_hex1 16 = Some (1000 / 256)%N
    /\ Py.int label_hex2 16 = Some (1000 mod 256)%N.
Proof. apply (label_bytes 1000 "END"). reflexivity. Defined.

(** *** Strings in binary *)

Lemma zfill_long (width : nat) (s : string) :
  (width <= String.length s)%nat -> Py.zfill width s = s.
Proof.
  intros H. unfold Py.zfill. replace (width - String.length s)%nat with 0%nat by lia.
  destruct s as [|c s]; [reflexivity|]. cbn [Py.zeros append].
  destruct (Ascii.eqb c "+" || Ascii.eqb c "-"); reflexivity.
Qed.

Lemma split_without (sep : ascii) (s : string) :
  Py.every (fun c => negb (Ascii.eqb c sep)) s = true -> Py.split sep s = [s].
Proof.
  induction s as [|c s IH]; [reflexivity|].
  cbn [Py.every Py.split]. intros H. apply andb_prop in H. destruct H as [Hc Hs].
  apply negb_true_iff in Hc. rewrite Hc, (IH Hs). reflexivity.
Qed.

Lemma split_first (sep : ascii) (a b : string) :
  Py.every (fun c => negb (Ascii.eqb c sep)) a = true ->
  Py.split sep (a ++ String sep b) = a :: Py.split sep b.
Proof.
  intros H. rewrite split_append, (split_without sep a H). reflexivity.
Qed.

Lemma split_join_blank (l : list string) :
  Forall (fun s => Py.every (fun c => negb (Ascii.eqb c " ")) s = true) l ->
  l <> [] -> Py.split " " (Py.join " " l) = l.
Proof.
  unfold Py.join. induction 1 as [|x l Hx Hl IH]; intros Hne; [congruence|].
  destruct l as [|y l].
  - cbn [String.concat]. apply split_without. exact Hx.
  - change (String.concat " " (x :: y :: l))
      with (x ++ String " " (String.concat " " (y :: l))).
    rewrite (split_first " " x _ Hx), IH by discriminate. reflexivity.
Qed.

Lemma bit_not_blank (c : ascii) :
  Ascii.eqb c "0" || Ascii.eqb c "1" = true -> negb (Ascii.eqb c " ") = true.
Proof. each_char c; vm_compute; intros H; try discriminate H; reflexivity. Qed.

Lemma bitstring_not_blank (s : string) :
  bitstring s = true -> Py.every (fun c => negb (Ascii.eqb c " ")) s = true.
Proof.
  unfold bitstring. induction s as [|c s IH]; [reflexivity|].
  cbn [Py.every]. intros H. apply andb_prop in H. destruct H as [Hc Hs].
  rewrite (bit_not_blank c Hc), (IH Hs). reflexivity.
Qed.

Lemma format_08b_byte (c : ascii) :
  String.length (Py.format_08b (Py.ord c)) = 8%nat
  /\ bitstring (Py.format_08b (Py.ord c)) = true
  /\ Py.int (Py.format_08b (Py.ord c)) 2 = Some (Py.ord c).
Proof.
  assert (H : (Py.ord c < 256)%N) by (unfold Py.ord; apply N_ascii_bounded).
  exact (binary_string_byte (Py.ord c) H).
Qed.

Lemma length_join_bytes (l : list string) :
  Forall (fun s => String.length s = 8%nat) l -> l <> [] ->
  (String.length (Py.join " " l) + 1 = 9 * List.length l)%nat.
Proof.
  unfold Py.join. induction 1 as [|x l Hx Hl IH]; intros Hne; [congruence|].
  destruct l as [|y l].
  - cbn [String.concat List.length]. lia.
  - change (String.concat " " (x :: y :: l))
      with (x ++ String " " (String.concat " " (y :: l))).
    rewrite length_append. cbn [String.length].
    specialize (IH ltac:(discriminate)). cbn [List.length] in *. lia.
Qed.

(** X26: [string_to_binary] of a string that is not empty, with a pad of
    eight or less, is one group of eight characters 0 and 1 for each
    character, with a blank between the groups; splitting it at the blanks
    and reading the groups in base two gives the codes of the characters
    back.  The empty string gives the pad in zeros. *)
Theorem string_to_binary_reads_back (input_string : string) (pad : nat) :
  input_string <> "" -> (pad <= 8)%nat ->
  (String.length (string_to_binary input_string pad) + 1
   = 9 * String.length input_string)%nat
  /\ map (fun group => Py.int group 2) (Py.split " " (string_to_binary input_string pad))
     = map (fun char => Some (Py.ord char)) (list_ascii_of_string input_string)
  /\ string_to_binary "" pad = Py.zeros pad.
Proof.
  intros Hne Hpad. unfold string_to_binary.
  set (groups := map (fun char => Py.format_08b (Py.ord char))
                   (list_ascii_of_string input_string)).
  assert (Hlen : List.length groups = String.length input_string).
  { subst groups. rewrite length_map. clear.
    induction input_string as [|c s IH]; simpl; [reflexivity | rewrite IH; reflexivity]. }
  assert (Hg : groups <> []).
  { intros E. rewrite E in Hlen. destruct input_string; [congruence | discriminate]. }
  assert (H8 : Forall (fun s => String.length s = 8%nat) groups).
  { subst groups. apply Forall_map, Forall_forall. intros c _. apply format_08b_byte. }
  assert (Hb : Forall (fun s => Py.every (fun c => negb (Ascii.eqb c " ")) s = true) groups).
  { subst groups. apply Forall_map, Forall_forall. intros c _.
    apply bitstring_not_blank, format_08b_byte. }
  pose proof (length_join_bytes groups H8 Hg) as Hj.
  assert (Hlong : (pad <= String.length (Py.join " " groups))%nat).
  { destruct groups; [congruence|]. cbn [List.length] in Hj. lia. }
  rewrite (zfill_long pad _ Hlong). split; [rewrite Hj, Hlen; reflexivity|].
  split.
  - rewrite (split_join_blank groups Hb Hg). subst groups. rewrite map_map.
    apply map_ext. intros c. apply format_08b_byte.
  - cbn. unfold Py.zfill. cbn. rewrite Nat.sub_0_r. reflexivity.
Qed.

Lemma string_to_binary_reads_back_witness :
  (String.length (string_to_binary "END" 8) + 1 = 9 * String.length "END")%nat
  /\ map (fun group => Py.int group 2) (Py.split " " (string_to_binary "END" 8))
     = map (fun char => Some (Py.ord char)) (list_ascii_of_string "END")
  /\ string_to_binary "" 8 = Py.zeros 8.
Proof. apply (string_to_binary_reads_back "END" 8); [discriminate | lia]. Defined.

(** *** Upper case, character by character *)















